(** * The Honeycomb trace exporter, embedded and verified

    Shallow embedding of [honeycomb.go]: the exporter turns a completed
    OpenCensus span (and its annotations) into flat Honeycomb events.

    The embedding keeps the data the Go code has:
    - [float64] is an IEEE-754 binary64 value ([spec_float] with
      precision 53 and maximal exponent 1024), with the Standard Library's
      executable rounding, division and comparison;
    - [time.Time] is an instant counted in nanoseconds, [time.Duration] a
      saturating 64-bit count of nanoseconds;
    - trace and span identifiers are fixed-size byte arrays, printed in
      lower-case hexadecimal;
    - the fields of an event are a finite map from field names to
      dynamically typed values, written with last-write-wins [AddField];
    - the client library is threaded through the exporter as an explicit
      state: the events handed out and the events submitted. *)

From Stdlib Require Import ZArith QArith Qround Qabs Lia Bool Ascii.
From Stdlib Require Import Floats.SpecFloat.
From stdpp Require Import base tactics option list vector gmap fin_maps strings.

Local Open Scope Z_scope.

(** ** IEEE-754 binary64 *)

Module Float64.

Definition prec : Z := 53.
Definition emax : Z := 1024.

Definition t := spec_float.

Definition zero : t := S754_zero false.

(** Conversion of an integer (Go: [float64(n)], round to nearest even). *)
Definition of_int (n : Z) : t := binary_normalize prec emax n 0 false.

Definition div (x y : t) : t := SFdiv prec emax x y.
Definition eqb (x y : t) : bool := SFeqb x y.
Definition ltb (x y : t) : bool := SFltb x y.

(** A value a [float64] variable can hold. *)
Definition valid (x : t) : bool := valid_binary prec emax x.

(** The rational number a finite value stands for. *)
Definition to_Q (x : t) : option Q :=
  match x with
  | S754_zero _ => Some 0%Q
  | S754_finite s m e =>
      Some (match e with
            | Zneg p => Qmake (cond_Zopp s (Zpos m)) (2 ^ p)%positive
            | _ => inject_Z (cond_Zopp s (Zpos m) * 2 ^ e)
            end)
  | _ => None
  end.

(** The integer part, fraction discarded (truncation toward zero);
    [None] for infinities and NaN. *)
Definition trunc (x : t) : option Z :=
  match x with
  | S754_zero _ => Some 0
  | S754_finite s m e =>
      Some (cond_Zopp s (match e with
                         | Zneg p => Z.shiftr (Zpos m) (Zpos p)
                         | _ => Z.shiftl (Zpos m) e
                         end))
  | _ => None
  end.

End Float64.

Abbreviation float64 := Float64.t.

(** ** Package [time]

    Go's standard library, not part of the sources: the three operations
    the exporter uses, as the library documents them. *)

Module time.

(** An instant, in nanoseconds since the zero [Time]
    (January 1, year 1, 00:00:00 UTC). The monotonic clock reading that a
    [Time] may carry besides is not modelled: both instants of a span are
    taken on one clock. *)
Record Time : Type := mkTime { ns : Z }.

Definition zero : Time := mkTime 0.

Definition IsZero (t : Time) : bool := ns t =? 0.

(** A [Duration] is an [int64] count of nanoseconds. *)
Definition Duration : Type := Z.
Definition minDuration : Duration := - 2 ^ 63.
Definition maxDuration : Duration := 2 ^ 63 - 1.
Definition Millisecond : Duration := 1000000.

(** [t.Sub(u)]: the duration [t - u], or the minimum (maximum) duration
    when the difference does not fit. *)
Definition Sub (t u : Time) : Duration :=
  let d := ns t - ns u in
  if d <? minDuration then minDuration
  else if maxDuration <? d then maxDuration
  else d.

End time.

#[global] Instance Time_eq_dec : EqDecision time.Time.
Proof. solve_decision. Defined.

(** ** Dynamically typed values (Go's [interface{}])

    The values that reach an event field: the attribute values of OpenCensus
    (booleans, 64-bit integers, strings, floats), the 32-bit status code,
    and the strings, floats and times of the exporter's own structs. *)

Inductive value : Type :=
| VBool (b : bool)
| VInt32 (n : Z)
| VInt64 (n : Z)
| VFloat64 (x : float64)
| VString (s : string)
| VTime (t : time.Time).

(** ** Package [go.opencensus.io/trace]: the span records handed to the exporter

    The tracing runtime is not part of the sources; its records are those
    of section 3 of the spec, with the field names the exporter reads. *)

Module trace.

(** Modelled from the spec: the identifier types are missing from the
    sources. A trace is identified by a [TraceID], a span by a [SpanID]
    (section 3); in the tracing runtime these are [[16]byte] and [[8]byte],
    and their string form is hexadecimal. *)
Definition TraceID : Type := vec Byte.byte 16.
Definition SpanID : Type := vec Byte.byte 8.

Definition hex_digit (n : N) : ascii :=
  match n with
  | 0 => "0" | 1 => "1" | 2 => "2" | 3 => "3" | 4 => "4" | 5 => "5"
  | 6 => "6" | 7 => "7" | 8 => "8" | 9 => "9" | 10 => "a" | 11 => "b"
  | 12 => "c" | 13 => "d" | 14 => "e" | _ => "f"
  end%N%char.

Definition hex_of_byte (b : Byte.byte) : string :=
  let n := Byte.to_N b in
  String (hex_digit (n / 16)) (String (hex_digit (n mod 16)) EmptyString).

(** [fmt.Sprintf("%02x", b[:])]: two lower-case hexadecimal digits per byte. *)
Definition hex (bs : list Byte.byte) : string :=
  foldr (fun b s => hex_of_byte b +:+ s) EmptyString bs.

Definition TraceID_String (t : TraceID) : string := hex (vec_to_list t).
Definition SpanID_String (s : SpanID) : string := hex (vec_to_list s).

(** The zero value [SpanID{}]. *)
Definition SpanID_zero : SpanID := vreplicate 8 Byte.x00.

Module SpanContext.
Record t : Type := mk { TraceID : TraceID; SpanID : SpanID }.
End SpanContext.

Module Status.
Record t : Type := mk { Code : Z; Message : string }.
End Status.

(** Modelled from the spec: the runtime's [Annotation] is missing from the
    sources. It is the AnnotationRecord of section 3. *)
Module Annotation.
Record t : Type :=
  mk { Time : time.Time; Message : string; Attributes : gmap string value }.
End Annotation.

(** Modelled from the spec: [SpanData] is missing from the sources. It is
    the SpanRecord of section 3, with the fields the exporter reads
    ([SpanContext] and [Status] are embedded structs in Go). *)
Module SpanData.
Record t : Type :=
  mk { SpanContext : SpanContext.t;
       ParentSpanID : SpanID;
       Name : string;
       StartTime : time.Time;
       EndTime : time.Time;
       Attributes : gmap string value;
       Annotations : list Annotation.t;
       Status : Status.t }.
End SpanData.

End trace.

#[global] Instance byte_eq_dec : EqDecision Byte.byte.
Proof. intros x y. destruct (Byte.eqb x y) eqn:E.
  - left. by apply Byte.byte_dec_bl.
  - right. intros ->. by rewrite Byte.byte_dec_lb in E.
Defined.

(** ** Package [libhoney]: the event-submission client

    The client library is not part of the exporter's sources; the exporter
    uses an event through five operations only. *)

Module libhoney.

(** Modelled from the spec: the event of the event-submission client is
    missing from the sources. It is the flat record of sections 3 and 6: a
    timestamp, a sample rate, and dynamic key-value fields. *)
Record Event : Type :=
  mkEvent { SampleRate : Z; Timestamp : time.Time; data : gmap string value }.

Definition set_SampleRate (r : Z) (ev : Event) : Event :=
  mkEvent r (Timestamp ev) (data ev).

Definition set_Timestamp (t : time.Time) (ev : Event) : Event :=
  mkEvent (SampleRate ev) t (data ev).

(** Modelled from the spec: [AddField] is missing from the sources. It sets
    one dynamic field of the flat record; a field has one value, the last
    one written under its name. *)
Definition AddField (key : string) (val : value) (ev : Event) : Event :=
  mkEvent (SampleRate ev) (Timestamp ev) (<[key := val]> (data ev)).

(** A struct as [Add] sees it: its fields in declaration order, each with
    the name and the [omitempty] option of its [json] tag. *)
Record field : Type :=
  mkField { json_name : string; omitempty : bool; field_value : value }.

Class Struct (A : Type) : Type := fields : A -> list field.

(** Modelled from the spec: the emptiness test behind [omitempty] is missing
    from the sources. Section 6 has [trace.parent_id] omitted if empty and
    [timestamp] omitted if zero; the other kinds follow Go's [omitempty]
    (false, 0, the empty string). *)
Definition isEmptyValue (v : value) : bool :=
  match v with
  | VBool b => negb b
  | VInt32 n | VInt64 n => n =? 0
  | VFloat64 x => Float64.eqb x Float64.zero
  | VString s => bool_decide (s = EmptyString)
  | VTime t => time.IsZero t
  end.

Definition add_field (ev : Event) (f : field) : Event :=
  if omitempty f && isEmptyValue (field_value f) then ev
  else AddField (json_name f) (field_value f) ev.

(** Modelled from the spec: [Add] is missing from the sources. It adds each
    field of a struct under its wire name, leaving out the fields that
    section 6 marks as omitted. *)
Definition Add {A : Type} `{Struct A} (s : A) (ev : Event) : Event :=
  foldl add_field ev (fields s).

(** A [Builder] is opaque to the exporter: all it does is hand out fresh
    events, which already carry the builder's own sample rate and fields.
    [fresh n] is the event handed out by the [n]-th call of [NewEvent]. *)
Record Builder : Type := mkBuilder { fresh : nat -> Event }.

(** Modelled from the spec: the client's state is missing from the
    sources. Submission is fire-and-forget (section 4.1): the state is the
    number of events handed out so far and the events submitted so far,
    oldest first. *)
Record Client : Type := mkClient { issued : nat; sent : list Event }.

Definition NewEvent (b : Builder) (c : Client) : Event * Client :=
  (fresh b (issued c), mkClient (S (issued c)) (sent c)).

(** Modelled from the spec: [SendPresampled] is missing from the sources.
    It hands the event to the transport, which does not sample it again;
    the exporter does not look at the outcome. *)
Definition SendPresampled (ev : Event) (c : Client) : Client :=
  mkClient (issued c) (sent c ++ [ev]).

(** [for key, value := range m { ev.AddField(key, value) }], visiting the
    entries of [m] in the order [order]. *)
Definition range_AddField_in (order : list (string * value)) (ev : Event) : Event :=
  foldl (fun ev kv => AddField kv.1 kv.2 ev) ev order.

Definition range_AddField (m : gmap string value) (ev : Event) : Event :=
  range_AddField_in (map_to_list m) ev.

End libhoney.

(** ** Package [honeycomb]: the exporter *)

Module honeycomb.

Import libhoney.

Record Exporter : Type :=
  mkExporter { Builder : libhoney.Builder;
               SampleFraction : float64;
               ServiceName : string }.

Module Annotation.
Record t : Type :=
  mk { Name : string; TraceID : string; ParentID : string; Timestamp : time.Time }.
End Annotation.

Module Span.
Record t : Type :=
  mk { TraceID : string; Name : string; ID : string; ParentID : string;
       DurationMs : float64; Timestamp : time.Time }.
End Span.

(** The [json] tags of the two structs. *)
#[global] Instance Annotation_Struct : Struct Annotation.t := fun a =>
  [ mkField "name" false (VString (Annotation.Name a));
    mkField "trace.trace_id" false (VString (Annotation.TraceID a));
    mkField "trace.parent_id" false (VString (Annotation.ParentID a));
    mkField "timestamp" false (VTime (Annotation.Timestamp a)) ].

#[global] Instance Span_Struct : Struct Span.t := fun s =>
  [ mkField "trace.trace_id" false (VString (Span.TraceID s));
    mkField "name" false (VString (Span.Name s));
    mkField "trace.span_id" false (VString (Span.ID s));
    mkField "trace.parent_id" true (VString (Span.ParentID s));
    mkField "duration_ms" false (VFloat64 (Span.DurationMs s));
    mkField "timestamp" true (VTime (Span.Timestamp s)) ].

(** [NewExporter]: the default sample fraction is 1 (no sampling) and the
    service name is empty. [libhoney.Init] and [libhoney.NewBuilder], which
    configure the client and make the builder, belong to the client
    library: the builder they return is a parameter here. *)
Definition NewExporter (builder : libhoney.Builder) : Exporter :=
  mkExporter builder (Float64.of_int 1) EmptyString.

Definition honeycombSpan (s : trace.SpanData.t) : Span.t :=
  let sc := trace.SpanData.SpanContext s in
  let hcSpan :=
    Span.mk (trace.TraceID_String (trace.SpanContext.TraceID sc))
            (trace.SpanData.Name s)
            (trace.SpanID_String (trace.SpanContext.SpanID sc))
            EmptyString
            Float64.zero
            (trace.SpanData.StartTime s) in
  let hcSpan :=
    if bool_decide (trace.SpanData.ParentSpanID s <> trace.SpanID_zero)
    then Span.mk (Span.TraceID hcSpan) (Span.Name hcSpan) (Span.ID hcSpan)
                 (trace.SpanID_String (trace.SpanData.ParentSpanID s))
                 (Span.DurationMs hcSpan) (Span.Timestamp hcSpan)
    else hcSpan in
  let s' := trace.SpanData.StartTime s in
  let e := trace.SpanData.EndTime s in
  if negb (time.IsZero s') && negb (time.IsZero e)
  then Span.mk (Span.TraceID hcSpan) (Span.Name hcSpan) (Span.ID hcSpan)
               (Span.ParentID hcSpan)
               (Float64.div (Float64.of_int (time.Sub e s'))
                            (Float64.of_int time.Millisecond))
               (Span.Timestamp hcSpan)
  else hcSpan.

Section Platform.

(** The width of [uint] (32 or 64), and the implementation-dependent result
    of converting a float that [uint] cannot represent. *)
Variable uint_bits : Z.
Variable uint_unrepresentable : float64 -> Z.

(** [uint(x)]: the fraction is discarded; when the result does not fit
    [uint] the conversion succeeds with an implementation-dependent value. *)
Definition uint_of_float64 (x : float64) : Z :=
  match Float64.trunc x with
  | Some n => if (0 <=? n) && (n <? 2 ^ uint_bits) then n
              else uint_unrepresentable x
  | None => uint_unrepresentable x
  end.

Definition exportAnnotation (e : Exporter) (sd : trace.SpanData.t)
    (a : trace.Annotation.t) (c : Client) : Client :=
  let '(ev, c) := NewEvent (Builder e) c in
  let ev :=
    if negb (Float64.eqb (SampleFraction e) Float64.zero)
    then set_SampleRate
           (uint_of_float64 (Float64.div (Float64.of_int 1) (SampleFraction e))) ev
    else ev in
  let ev :=
    if bool_decide (ServiceName e <> EmptyString)
    then AddField "service_name" (VString (ServiceName e)) ev
    else ev in
  let ev := set_Timestamp (trace.Annotation.Time a) ev in
  let ev :=
    Add (Annotation.mk
           (trace.Annotation.Message a)
           (trace.TraceID_String
              (trace.SpanContext.TraceID (trace.SpanData.SpanContext sd)))
           (trace.SpanID_String
              (trace.SpanContext.SpanID (trace.SpanData.SpanContext sd)))
           (trace.Annotation.Time a)) ev in
  let ev := AddField "trace.annotation" (VBool true) ev in
  let ev :=
    if negb (size (trace.Annotation.Attributes a) =? 0)%nat
    then range_AddField (trace.Annotation.Attributes a) ev
    else ev in
  SendPresampled ev c.

Definition ExportSpan (e : Exporter) (sd : trace.SpanData.t) (c : Client) : Client :=
  let '(ev, c) := NewEvent (Builder e) c in
  let ev :=
    if negb (Float64.eqb (SampleFraction e) Float64.zero)
    then set_SampleRate
           (uint_of_float64 (Float64.div (Float64.of_int 1) (SampleFraction e))) ev
    else ev in
  let ev :=
    if bool_decide (ServiceName e <> EmptyString)
    then AddField "service_name" (VString (ServiceName e)) ev
    else ev in
  let ev := set_Timestamp (trace.SpanData.StartTime sd) ev in
  let hs := honeycombSpan sd in
  let ev := Add hs ev in
  let ev :=
    if negb (size (trace.SpanData.Attributes sd) =? 0)%nat
    then range_AddField (trace.SpanData.Attributes sd) ev
    else ev in
  let ev :=
    if negb (trace.Status.Code (trace.SpanData.Status sd) =? 0)
    then AddField "status_code"
           (VInt32 (trace.Status.Code (trace.SpanData.Status sd))) ev
    else ev in
  let ev :=
    if bool_decide (trace.Status.Message (trace.SpanData.Status sd) <> EmptyString)
    then AddField "status_description"
           (VString (trace.Status.Message (trace.SpanData.Status sd))) ev
    else ev in
  let c := SendPresampled ev c in
  foldl (fun c a => exportAnnotation e sd a c) c (trace.SpanData.Annotations sd).

End Platform.

End honeycomb.

(** * Rounding without loss *)

(** A shift record that has lost nothing so far. *)
Definition exact_record (mrs : shr_record) : Prop :=
  0 <= shr_m mrs /\ shr_r mrs = false /\ shr_s mrs = false.

(** The float64 value [2 ^ k], for [-1022 <= k <= 1023]: the mantissa
    [2 ^ 52] with the exponent [k - 52]. *)
Definition float64_pow2 (k : Z) : float64 :=
  S754_finite false 4503599627370496 (k - 52).

(** * Views of the exporter's output

    The events one call submits, and a declarative description of them,
    field map by field map, against which the code is checked below. *)

Module honeycomb_views.
Import libhoney honeycomb.

(** The names under which [Add] may write a [Span]. *)
Definition span_struct_names : list string :=
  ["trace.trace_id"; "name"; "trace.span_id"; "trace.parent_id";
   "duration_ms"; "timestamp"].

Section Views.

Variable uint_bits : Z.
Variable uint_unrepresentable : float64 -> Z.

(** The events one call of [ExportSpan] submits, oldest first. *)
Definition emitted (e : Exporter) (sd : trace.SpanData.t) (c : Client) : list Event :=
  drop (length (sent c))
       (sent (ExportSpan uint_bits uint_unrepresentable e sd c)).

(** The attributes written on the [i]-th emitted event: those of the span
    for the Span event, those of the annotation for an Annotation event. *)
Definition attributes_of (sd : trace.SpanData.t) (i : nat) : gmap string value :=
  match i with
  | O => trace.SpanData.Attributes sd
  | S j => default ∅ (trace.Annotation.Attributes <$> trace.SpanData.Annotations sd !! j)
  end.

(** Declarative description of the events, field map by field map. *)
Definition sample_rate_of (e : Exporter) (r0 : Z) : Z :=
  if Float64.eqb (SampleFraction e) Float64.zero then r0
  else uint_of_float64 uint_bits uint_unrepresentable
         (Float64.div (Float64.of_int 1) (SampleFraction e)).

Definition service_fields (e : Exporter) (d0 : gmap string value) : gmap string value :=
  if decide (ServiceName e = EmptyString) then d0
  else <["service_name" := VString (ServiceName e)]> d0.

Definition span_struct_fields (hs : Span.t) (d : gmap string value) : gmap string value :=
  let d := <["trace.trace_id" := VString (Span.TraceID hs)]> d in
  let d := <["name" := VString (Span.Name hs)]> d in
  let d := <["trace.span_id" := VString (Span.ID hs)]> d in
  let d := if decide (Span.ParentID hs = EmptyString) then d
           else <["trace.parent_id" := VString (Span.ParentID hs)]> d in
  let d := <["duration_ms" := VFloat64 (Span.DurationMs hs)]> d in
  if time.IsZero (Span.Timestamp hs) then d
  else <["timestamp" := VTime (Span.Timestamp hs)]> d.

Definition status_fields (st : trace.Status.t) (d : gmap string value) : gmap string value :=
  let d := if decide (trace.Status.Code st = 0) then d
           else <["status_code" := VInt32 (trace.Status.Code st)]> d in
  if decide (trace.Status.Message st = EmptyString) then d
  else <["status_description" := VString (trace.Status.Message st)]> d.

Definition span_event (e : Exporter) (sd : trace.SpanData.t) (ev0 : Event) : Event :=
  mkEvent (sample_rate_of e (SampleRate ev0))
          (trace.SpanData.StartTime sd)
          (status_fields (trace.SpanData.Status sd)
             (trace.SpanData.Attributes sd ∪
              span_struct_fields (honeycombSpan sd) (service_fields e (data ev0)))).

Definition annotation_event (e : Exporter) (sd : trace.SpanData.t)
    (a : trace.Annotation.t) (ev0 : Event) : Event :=
  let sc := trace.SpanData.SpanContext sd in
  mkEvent (sample_rate_of e (SampleRate ev0))
          (trace.Annotation.Time a)
          (trace.Annotation.Attributes a ∪
           <["trace.annotation" := VBool true]>
             (<["timestamp" := VTime (trace.Annotation.Time a)]>
                (<["trace.parent_id" :=
                     VString (trace.SpanID_String (trace.SpanContext.SpanID sc))]>
                   (<["trace.trace_id" :=
                        VString (trace.TraceID_String (trace.SpanContext.TraceID sc))]>
                      (<["name" := VString (trace.Annotation.Message a)]>
                         (service_fields e (data ev0))))))).

(** The four fields that mark an Annotation event and tie it to its span. *)
Definition annotation_marks (sd : trace.SpanData.t) (a : trace.Annotation.t)
  : list (string * value) :=
  let sc := trace.SpanData.SpanContext sd in
  [ ("trace.annotation", VBool true);
    ("name", VString (trace.Annotation.Message a));
    ("trace.trace_id", VString (trace.TraceID_String (trace.SpanContext.TraceID sc)));
    ("trace.parent_id", VString (trace.SpanID_String (trace.SpanContext.SpanID sc))) ].

End Views.

(** The fields by which a Span event identifies its span. *)
Definition span_marks (sd : trace.SpanData.t) : list (string * value) :=
  let hs := honeycombSpan sd in
  [ ("trace.trace_id", VString (Span.TraceID hs));
    ("name", VString (Span.Name hs));
    ("trace.span_id", VString (Span.ID hs));
    ("duration_ms", VFloat64 (Span.DurationMs hs)) ].

(** The field names the exporter itself writes on a Span event and on an
    Annotation event (the [i]-th event of a call is the Span event for
    [i = 0]). *)
Definition span_event_names : list string :=
  "service_name" :: span_struct_names ++ ["status_code"; "status_description"].

Definition annotation_event_names : list string :=
  ["service_name"; "name"; "trace.trace_id"; "trace.parent_id"; "timestamp";
   "trace.annotation"].

Definition own_names (i : nat) : list string :=
  match i with
  | O => span_event_names
  | S _ => annotation_event_names
  end.

(** The field [k] of the [i]-th event submitted. *)
Definition field_of (evs : list Event) (i : nat) (k : string) : option value :=
  evs !! i ≫= fun ev => data ev !! k.

(** ** The spec's words

    Section 4.1 has [SampleRate = round(1 / SampleFraction)]: the integer
    nearest to the exact quotient (halves up). *)
Definition round_nearest (q : Q) : Z := Qfloor (q + (1 # 2)).

Definition spec_SampleRate (f : float64) : option Z :=
  q ← Float64.to_Q f; Some (round_nearest (/ q)).

(** Section 8 has [DurationMs = (EndTime - StartTime)] in milliseconds,
    exactly: the exact rational number of milliseconds between the two
    instants. *)
Definition spec_DurationMs (sd : trace.SpanData.t) : Q :=
  Qmake (time.ns (trace.SpanData.EndTime sd) - time.ns (trace.SpanData.StartTime sd))
        1000000.

End honeycomb_views.

(** * Concrete spans and exporters *)

Module examples.
Import libhoney honeycomb.

(** A builder as [NewExporter] makes it: sample rate 1, no fields. *)
Definition plain_event : Event := mkEvent 1 time.zero ∅.
Definition plain_builder : libhoney.Builder := mkBuilder (fun _ => plain_event).
Definition idle_client : Client := mkClient 0 [].

(** A 64-bit platform; the value chosen for unrepresentable conversions
    plays no role in the examples. *)
Definition bits64 : Z := 64.
Definition unrep0 : float64 -> Z := fun _ => 0.

Definition trace_1 : trace.TraceID := vreplicate 16 Byte.x01.
Definition span_2 : trace.SpanID := vreplicate 8 Byte.x02.
Definition span_3 : trace.SpanID := vreplicate 8 Byte.x03.
Definition context_12 : trace.SpanContext.t := trace.SpanContext.mk trace_1 span_2.

(** An instant in 2018 (nanoseconds since year 1). *)
Definition t2018 : time.Time := time.mkTime 63650000000000000000.
Definition after (t : time.Time) (d : Z) : time.Time := time.mkTime (time.ns t + d).

Definition ok_status : trace.Status.t := trace.Status.mk 0 EmptyString.

(** A root span of 150 ms with one attribute (the example of section 8). *)
Definition span_150ms : trace.SpanData.t :=
  trace.SpanData.mk context_12 trace.SpanID_zero "op" t2018 (after t2018 150000000)
    {[ "http.status" := VInt64 200 ]} [] ok_status.

(** [e.SampleFraction = f; e.ServiceName = name] on a new exporter. *)
Definition exporter_of (f : float64) (name : string) : Exporter :=
  mkExporter (Builder (NewExporter plain_builder)) f name.

(** [e.ServiceName = name] on a new exporter: no sampling. *)
Definition unsampled (name : string) : Exporter :=
  exporter_of (SampleFraction (NewExporter plain_builder)) name.

(** A new exporter, and [e.SampleFraction = f] on a new exporter. *)
Definition default_exporter : Exporter := NewExporter plain_builder.
Definition sampling (f : float64) : Exporter := exporter_of f EmptyString.

(** One event in 1.6 is kept: [SampleFraction = 0.625 = 5/8]. *)
Definition f0625 : float64 := S754_finite false 5629499534213120 (-53).

(** One event in 5 is kept: [SampleFraction = 0.2], the float64 nearest to
    one fifth, which is slightly above it. *)
Definition f02 : float64 := S754_finite false 7205759403792794 (-55).

(** One event in 93 is kept: [SampleFraction = 1.0 / 93]. *)
Definition f_1_93 : float64 := Float64.div (Float64.of_int 1) (Float64.of_int 93).

(** A child span of [span_3] with a status and one annotation. *)
Definition note : trace.Annotation.t :=
  trace.Annotation.mk (after t2018 1000000) "cache miss"
    {[ "key" := VString "k1" ]}.

Definition span_child : trace.SpanData.t :=
  trace.SpanData.mk context_12 span_3 "get" t2018 (after t2018 2000000)
    {[ "http.status" := VInt64 404 ]} [note] (trace.Status.mk 5 "not found").

(** Spans and annotations whose attributes use a name the exporter also
    writes. *)
Definition note_named : trace.Annotation.t :=
  trace.Annotation.mk (after t2018 1000000) "cache miss"
    {[ "name" := VString "x" ]}.

Definition span_with (attrs : gmap string value) (start : time.Time)
    (anns : list trace.Annotation.t) (st : trace.Status.t) : trace.SpanData.t :=
  trace.SpanData.mk context_12 trace.SpanID_zero "op" start (after t2018 150000000)
    attrs anns st.

Definition span_note_named : trace.SpanData.t :=
  span_with ∅ t2018 [note_named] ok_status.

Definition span_attr_parent_id : trace.SpanData.t :=
  span_with {[ "trace.parent_id" := VString "x" ]} t2018 [] ok_status.

Definition span_attr_status_code : trace.SpanData.t :=
  span_with {[ "status_code" := VInt64 7 ]} t2018 [] ok_status.

Definition span_attr_status_code_failed : trace.SpanData.t :=
  span_with {[ "status_code" := VString "x" ]} t2018 [] (trace.Status.mk 2 EmptyString).

Definition span_attr_service_name : trace.SpanData.t :=
  span_with {[ "service_name" := VString "other" ]} t2018 [] ok_status.

(** A span of one microsecond, and spans whose two instants are more than
    [2 ^ 63] nanoseconds (about 292 years) apart: one starts a nanosecond
    after the zero time, the other ends there. *)
Definition span_1us : trace.SpanData.t :=
  trace.SpanData.mk context_12 trace.SpanID_zero "op" t2018 (after t2018 1000)
    ∅ [] ok_status.

Definition span_ancient : trace.SpanData.t :=
  trace.SpanData.mk context_12 trace.SpanID_zero "op" (time.mkTime 1) t2018
    ∅ [] ok_status.

Definition span_backwards_far : trace.SpanData.t :=
  trace.SpanData.mk context_12 trace.SpanID_zero "op" t2018 (time.mkTime 1)
    ∅ [] ok_status.

(** A span that ends 2 ms before it starts. *)
Definition span_backwards : trace.SpanData.t :=
  trace.SpanData.mk context_12 trace.SpanID_zero "op" t2018 (after t2018 (-2000000))
    ∅ [] ok_status.

Definition span_unstarted : trace.SpanData.t :=
  span_with {[ "http.status" := VInt64 200 ]} time.zero [] ok_status.

Definition span_unstarted_attr_timestamp : trace.SpanData.t :=
  span_with {[ "timestamp" := VString "x" ]} time.zero [] ok_status.

(** Spans with an attribute named [duration_ms]: one of 150 ms, and one
    that ends 2 ms before it starts. *)
Definition span_attr_duration_ms : trace.SpanData.t :=
  span_with {[ "duration_ms" := VString "x" ]} t2018 [] ok_status.

Definition span_backwards_attr_duration_ms : trace.SpanData.t :=
  trace.SpanData.mk context_12 trace.SpanID_zero "op" t2018 (after t2018 (-2000000))
    {[ "duration_ms" := VString "x" ]} [] ok_status.

(** A builder whose events carry fields of its own. *)
Definition team_event : Event :=
  mkEvent 1 time.zero (<["team" := VString "core"]> {[ "name" := VString "builder" ]}).
Definition team_builder : libhoney.Builder := mkBuilder (fun _ => team_event).

(** A span with an annotation that has no time. *)
Definition note_untimed : trace.Annotation.t :=
  trace.Annotation.mk time.zero "retry" ∅.

Definition span_note_untimed : trace.SpanData.t :=
  span_with ∅ t2018 [note_untimed] ok_status.

(** Two attributes, to be visited in either order. *)
Definition two_attributes : gmap string value :=
  <["http.status" := VInt64 404]> {[ "key" := VString "k1" ]}.

End examples.

(** * Properties of the client model *)

Module libhoney_facts.
Import libhoney.

(** Visiting a list of entries with distinct keys writes exactly these
    entries over the fields the event had. *)
Lemma range_AddField_in_spec (order : list (string * value)) (ev : Event) :
  NoDup (order.*1) ->
  range_AddField_in order ev =
  mkEvent (SampleRate ev) (Timestamp ev) (list_to_map order ∪ data ev).
Proof.
  revert ev. induction order as [|[k v] order IH]; intros ev Hnd.
  - destruct ev; simpl. by rewrite (left_id_L ∅ (∪)).
  - apply NoDup_cons in Hnd as [Hk Hnd].
    unfold range_AddField_in in *. cbn [foldl fst snd].
    rewrite IH by done. cbn [SampleRate Timestamp data AddField].
    f_equal. rewrite list_to_map_cons, <- insert_union_l.
    symmetry. apply insert_union_r. by apply not_elem_of_list_to_map_1.
Qed.

(** The [range] loop: the attributes take precedence over the fields
    already there. *)
Lemma range_AddField_spec (m : gmap string value) (ev : Event) :
  range_AddField m ev = mkEvent (SampleRate ev) (Timestamp ev) (m ∪ data ev).
Proof.
  unfold range_AddField.
  rewrite range_AddField_in_spec by apply NoDup_fst_map_to_list.
  by rewrite list_to_map_to_list.
Qed.

End libhoney_facts.

(** * What [ExportSpan] hands to the client *)

Module honeycomb_facts.
Import libhoney libhoney_facts honeycomb honeycomb_views.

Section Emitted.

Variable uint_bits : Z.
Variable uint_unrepresentable : float64 -> Z.

Abbreviation ExportSpan := (honeycomb.ExportSpan uint_bits uint_unrepresentable).
Abbreviation exportAnnotation :=
  (honeycomb.exportAnnotation uint_bits uint_unrepresentable).
Abbreviation emitted := (honeycomb_views.emitted uint_bits uint_unrepresentable).
Abbreviation span_event := (honeycomb_views.span_event uint_bits uint_unrepresentable).
Abbreviation annotation_event :=
  (honeycomb_views.annotation_event uint_bits uint_unrepresentable).
Abbreviation sample_rate_of :=
  (honeycomb_views.sample_rate_of uint_bits uint_unrepresentable).

Lemma range_AddField_guarded (m : gmap string value) (ev : Event) :
  (if negb (size m =? 0)%nat then range_AddField m ev else ev) =
  mkEvent (SampleRate ev) (Timestamp ev) (m ∪ data ev).
Proof.
  rewrite range_AddField_spec.
  destruct (size m =? 0)%nat eqn:E; [|done]. simpl.
  apply Nat.eqb_eq, map_size_empty_iff in E. subst m.
  destruct ev; simpl. by rewrite (left_id_L ∅ (∪)).
Qed.

Lemma exportAnnotation_spec e sd a c :
  exportAnnotation e sd a c =
  mkClient (S (issued c))
           (sent c ++ [annotation_event e sd a (fresh (Builder e) (issued c))]).
Proof.
  unfold honeycomb.exportAnnotation, NewEvent, SendPresampled. cbn [issued sent].
  f_equal. f_equal. f_equal.
  rewrite range_AddField_guarded.
  unfold honeycomb_views.annotation_event, honeycomb_views.sample_rate_of,
    service_fields.
  destruct (Float64.eqb _ _); case_bool_decide; case_decide; try done;
    by destruct (fresh _ _).
Qed.

Lemma foldl_exportAnnotation e sd l c :
  foldl (fun c a => exportAnnotation e sd a c) c l =
  mkClient (issued c + length l)%nat
           (sent c ++ imap (fun i a => annotation_event e sd a
                                         (fresh (Builder e) (issued c + i)%nat)) l).
Proof.
  revert c. induction l as [|a l IH]; intros c.
  - destruct c; simpl. by rewrite Nat.add_0_r, app_nil_r.
  - cbn [foldl]. rewrite IH, exportAnnotation_spec. cbn [issued sent length].
    rewrite imap_cons, <- app_assoc. cbn [app]. rewrite Nat.add_0_r.
    f_equal; [lia|]. do 2 f_equal. apply imap_ext. intros i x _. simpl.
    do 2 f_equal. lia.
Qed.

Lemma Add_Span_spec (hs : Span.t) (ev : Event) :
  Add hs ev =
  mkEvent (SampleRate ev) (Timestamp ev) (span_struct_fields hs (data ev)).
Proof.
  unfold Add, fields, Span_Struct, span_struct_fields.
  cbn [foldl]. unfold add_field.
  cbn [omitempty field_value json_name isEmptyValue andb].
  case_bool_decide; case_decide; try done;
    destruct (time.IsZero (Span.Timestamp hs)); done.
Qed.

Lemma ExportSpan_spec e sd c :
  ExportSpan e sd c =
  mkClient (issued c + S (length (trace.SpanData.Annotations sd)))%nat
    (sent c ++
     span_event e sd (fresh (Builder e) (issued c)) ::
     imap (fun i a => annotation_event e sd a
                        (fresh (Builder e) (issued c + S i)%nat))
          (trace.SpanData.Annotations sd)).
Proof.
  unfold honeycomb.ExportSpan, NewEvent. rewrite foldl_exportAnnotation.
  unfold SendPresampled. cbn [issued sent].
  f_equal; [lia|]. rewrite <- app_assoc. cbn [app]. f_equal. f_equal.
  - rewrite range_AddField_guarded, Add_Span_spec.
    unfold honeycomb_views.span_event, honeycomb_views.sample_rate_of,
      service_fields, status_fields.
    destruct (Float64.eqb _ _), (trace.Status.Code _ =? 0) eqn:Hc;
      [apply Z.eqb_eq in Hc|apply Z.eqb_neq in Hc
      |apply Z.eqb_eq in Hc|apply Z.eqb_neq in Hc];
      repeat case_bool_decide; repeat case_decide; try done;
      by destruct (fresh _ _).
  - apply imap_ext. intros i x _. simpl. do 2 f_equal. lia.
Qed.

(** [ExportSpan] submits the Span event, then one Annotation event per
    annotation, in the order of the annotations. *)
Lemma emitted_eq e sd c :
  emitted e sd c =
  span_event e sd (fresh (Builder e) (issued c)) ::
  imap (fun i a => annotation_event e sd a
                     (fresh (Builder e) (issued c + S i)%nat))
       (trace.SpanData.Annotations sd).
Proof.
  unfold honeycomb_views.emitted. rewrite ExportSpan_spec. cbn [sent].
  apply drop_app_length.
Qed.

Lemma emitted_length e sd c :
  length (emitted e sd c) = S (length (trace.SpanData.Annotations sd)).
Proof. rewrite emitted_eq. cbn [length]. by rewrite length_imap. Qed.

Lemma emitted_span e sd c :
  emitted e sd c !! 0%nat = Some (span_event e sd (fresh (Builder e) (issued c))).
Proof. by rewrite emitted_eq. Qed.

Lemma emitted_annotation e sd c i :
  emitted e sd c !! S i =
  (fun a => annotation_event e sd a (fresh (Builder e) (issued c + S i)%nat))
    <$> trace.SpanData.Annotations sd !! i.
Proof. rewrite emitted_eq. cbn [lookup list_lookup]. apply list_lookup_imap. Qed.

End Emitted.
End honeycomb_facts.

(** * Field-by-field reading of the events *)

Module event_fields.
Import libhoney libhoney_facts honeycomb honeycomb_views honeycomb_facts.

Lemma SpanID_String_nonempty (s : trace.SpanID) :
  trace.SpanID_String s <> EmptyString.
Proof. unfold trace.SpanID_String. inv_vec s. intros b s. done. Qed.

Lemma status_fields_lookup (st : trace.Status.t) (d : gmap string value) k :
  status_fields st d !! k =
  if decide (k = "status_description" /\ trace.Status.Message st <> EmptyString)
  then Some (VString (trace.Status.Message st))
  else if decide (k = "status_code" /\ trace.Status.Code st <> 0)
       then Some (VInt32 (trace.Status.Code st))
       else d !! k.
Proof.
  unfold status_fields.
  repeat case_decide; destruct_and?; simplify_map_eq; try done.
  all: rewrite ?lookup_insert_ne by naive_solver; try done.
  all: destruct (decide (k = "status_code")) as [->|];
    [naive_solver | by rewrite lookup_insert_ne].
Qed.

Lemma service_fields_lookup (e : Exporter) (d : gmap string value) k :
  service_fields e d !! k =
  if decide (k = "service_name" /\ ServiceName e <> EmptyString)
  then Some (VString (ServiceName e))
  else d !! k.
Proof.
  unfold service_fields.
  repeat case_decide; destruct_and?; simplify_map_eq; try done.
Qed.

Lemma span_struct_fields_other (hs : Span.t) (d : gmap string value) k :
  k ∉ span_struct_names -> span_struct_fields hs d !! k = d !! k.
Proof.
  unfold span_struct_names. rewrite !not_elem_of_cons. intros (?&?&?&?&?&?&_).
  unfold span_struct_fields.
  case_decide; destruct (time.IsZero _); by rewrite !lookup_insert_ne.
Qed.

Lemma span_struct_fields_parent_id (hs : Span.t) (d : gmap string value) :
  span_struct_fields hs d !! "trace.parent_id" =
  if decide (Span.ParentID hs = EmptyString) then d !! "trace.parent_id"
  else Some (VString (Span.ParentID hs)).
Proof.
  unfold span_struct_fields.
  case_decide; destruct (time.IsZero _); by simplify_map_eq.
Qed.

Lemma span_struct_fields_timestamp (hs : Span.t) (d : gmap string value) :
  span_struct_fields hs d !! "timestamp" =
  if time.IsZero (Span.Timestamp hs) then d !! "timestamp"
  else Some (VTime (Span.Timestamp hs)).
Proof.
  unfold span_struct_fields.
  case_decide; destruct (time.IsZero _); by simplify_map_eq.
Qed.

Section Lookup.

Variable uint_bits : Z.
Variable uint_unrepresentable : float64 -> Z.

Abbreviation span_event := (honeycomb_views.span_event uint_bits uint_unrepresentable).
Abbreviation annotation_event :=
  (honeycomb_views.annotation_event uint_bits uint_unrepresentable).

(** Who wins a field of the Span event: the status, else the attributes,
    else the [Span] struct, else the service name, else the builder. *)
Lemma span_event_lookup e sd ev0 k :
  data (span_event e sd ev0) !! k =
  if decide (k = "status_description" /\
             trace.Status.Message (trace.SpanData.Status sd) <> EmptyString)
  then Some (VString (trace.Status.Message (trace.SpanData.Status sd)))
  else if decide (k = "status_code" /\
                  trace.Status.Code (trace.SpanData.Status sd) <> 0)
  then Some (VInt32 (trace.Status.Code (trace.SpanData.Status sd)))
  else match trace.SpanData.Attributes sd !! k with
       | Some v => Some v
       | None =>
           span_struct_fields (honeycombSpan sd) (service_fields e (data ev0)) !! k
       end.
Proof.
  unfold honeycomb_views.span_event. cbn [data].
  rewrite status_fields_lookup, lookup_union.
  repeat case_decide; try done;
    destruct (trace.SpanData.Attributes sd !! k); simpl;
    by destruct (span_struct_fields _ _ !! k).
Qed.

(** Who wins a field of an Annotation event: the attributes, else the
    marker, else the [Annotation] struct, else the service name, else the
    builder. *)
Lemma annotation_event_lookup e sd a ev0 k :
  data (annotation_event e sd a ev0) !! k =
  match trace.Annotation.Attributes a !! k with
  | Some v => Some v
  | None =>
      let sc := trace.SpanData.SpanContext sd in
      if decide (k = "trace.annotation") then Some (VBool true)
      else if decide (k = "timestamp") then Some (VTime (trace.Annotation.Time a))
      else if decide (k = "trace.parent_id")
      then Some (VString (trace.SpanID_String (trace.SpanContext.SpanID sc)))
      else if decide (k = "trace.trace_id")
      then Some (VString (trace.TraceID_String (trace.SpanContext.TraceID sc)))
      else if decide (k = "name") then Some (VString (trace.Annotation.Message a))
      else service_fields e (data ev0) !! k
  end.
Proof.
  unfold honeycomb_views.annotation_event. cbn [data].
  rewrite lookup_union.
  destruct (trace.Annotation.Attributes a !! k); simpl.
  - by destruct (_ !! k).
  - rewrite (left_id_L None (∪)).
    repeat case_decide; subst; by simplify_map_eq.
Qed.

End Lookup.
End event_fields.


(** * The fields of the events *)

Section FieldClaims.
Import libhoney honeycomb honeycomb_views honeycomb_facts event_fields.

Variable uint_bits : Z.
Variable uint_unrepresentable : float64 -> Z.

Abbreviation emitted := (honeycomb_views.emitted uint_bits uint_unrepresentable).

(** Splits the [decide]s of a lookup and drops the cases whose key
    equation is absurd. *)
Ltac lookup_cases :=
  repeat case_decide;
  try done;
  try (by match goal with H : _ /\ _ |- _ => destruct H as [? ?] end).

(** Settles [k ∉ span_struct_names] for a literal [k]. *)
Ltac not_a_span_name := apply (bool_decide_unpack _); vm_compute; exact I.

Lemma honeycombSpan_ParentID sd :
  Span.ParentID (honeycombSpan sd) =
  if decide (trace.SpanData.ParentSpanID sd = trace.SpanID_zero) then EmptyString
  else trace.SpanID_String (trace.SpanData.ParentSpanID sd).
Proof.
  unfold honeycombSpan.
  case_bool_decide; case_decide; try done; by destruct (negb _ && negb _).
Qed.

Lemma honeycombSpan_Timestamp sd :
  Span.Timestamp (honeycombSpan sd) = trace.SpanData.StartTime sd.
Proof. unfold honeycombSpan. case_bool_decide; by destruct (negb _ && negb _). Qed.

(** C4, amended: [ExportSpan] submits exactly one Annotation event per
    annotation of the span, after the Span event and in the order of the
    annotations. The event of an annotation carries [trace.annotation = true],
    [name] equal to the annotation's message, [trace.trace_id] and
    [trace.parent_id] equal to the string forms of the owning span's trace
    and span identifiers, each of them unless the annotation has an
    attribute of that name (the attribute is written last and wins). *)
Theorem C4_annotation_events e sd c :
  length (emitted e sd c) = S (length (trace.SpanData.Annotations sd)) /\
  forall i a, trace.SpanData.Annotations sd !! i = Some a ->
    exists ev, emitted e sd c !! S i = Some ev /\
               Timestamp ev = trace.Annotation.Time a /\
               forall k v, (k, v) ∈ annotation_marks sd a ->
                           trace.Annotation.Attributes a !! k = None ->
                           data ev !! k = Some v.
Proof.
  split; [apply emitted_length|]. intros i a Ha.
  eexists. split; [by rewrite emitted_annotation, Ha|]. split; [done|].
  intros k v Hkv Hattr.
  rewrite annotation_event_lookup, Hattr. cbn zeta.
  unfold annotation_marks in Hkv.
  rewrite !elem_of_cons, elem_of_nil in Hkv.
  destruct Hkv as [[= -> ->]|[[= -> ->]|[[= -> ->]|[[= -> ->]|[]]]]]; done.
Qed.

(** C5, amended: when neither the span's attributes nor the builder's fresh
    event has a field [trace.parent_id], the Span event has that field if
    and only if the span's [ParentSpanID] is not the zero identifier, and
    the field is then the string form of [ParentSpanID]. *)
Theorem C5_parent_id e sd c :
  trace.SpanData.Attributes sd !! "trace.parent_id" = None ->
  data (fresh (Builder e) (issued c)) !! "trace.parent_id" = None ->
  exists ev, emitted e sd c !! 0%nat = Some ev /\
    (is_Some (data ev !! "trace.parent_id") <->
     trace.SpanData.ParentSpanID sd <> trace.SpanID_zero) /\
    (trace.SpanData.ParentSpanID sd <> trace.SpanID_zero ->
     data ev !! "trace.parent_id" =
     Some (VString (trace.SpanID_String (trace.SpanData.ParentSpanID sd)))).
Proof.
  intros Hattr Hfresh. eexists. split; [apply emitted_span|].
  rewrite span_event_lookup, Hattr, span_struct_fields_parent_id,
    service_fields_lookup, Hfresh, honeycombSpan_ParentID.
  lookup_cases.
  by destruct (SpanID_String_nonempty (trace.SpanData.ParentSpanID sd)).
Qed.

(** C6, amended: the Span event's [status_code] is the span's status code
    whenever that code is not 0, and [status_description] is the span's
    status message whenever that message is not empty. When the code is 0
    (the message empty) the field is absent, provided neither the span's
    attributes nor the builder's fresh event has a field of that name. *)
Theorem C6_status_fields e sd c :
  let st := trace.SpanData.Status sd in
  let ev0 := fresh (Builder e) (issued c) in
  exists ev, emitted e sd c !! 0%nat = Some ev /\
    (trace.Status.Code st <> 0 ->
     data ev !! "status_code" = Some (VInt32 (trace.Status.Code st))) /\
    (trace.Status.Message st <> EmptyString ->
     data ev !! "status_description" = Some (VString (trace.Status.Message st))) /\
    (trace.Status.Code st = 0 ->
     trace.SpanData.Attributes sd !! "status_code" = None ->
     data ev0 !! "status_code" = None ->
     data ev !! "status_code" = None) /\
    (trace.Status.Message st = EmptyString ->
     trace.SpanData.Attributes sd !! "status_description" = None ->
     data ev0 !! "status_description" = None ->
     data ev !! "status_description" = None).
Proof.
  intros st ev0. eexists. split; [apply emitted_span|].
  rewrite !span_event_lookup. fold st ev0.
  repeat split.
  - intros Hc. lookup_cases. naive_solver.
  - intros Hm. lookup_cases. naive_solver.
  - intros Hc Hattr Hfresh. rewrite Hattr.
    rewrite span_struct_fields_other, service_fields_lookup by not_a_span_name.
    lookup_cases.
  - intros Hm Hattr Hfresh. rewrite Hattr.
    rewrite span_struct_fields_other, service_fields_lookup by not_a_span_name.
    lookup_cases.
Qed.

(** C7, amended: an event whose own attributes (the span's for the Span
    event, the annotation's for an Annotation event) have no key
    [service_name] carries [service_name] equal to the exporter's
    [ServiceName] when that name is not empty; when it is empty the exporter
    writes no such field and the event keeps what the builder's fresh event
    had under that name. *)
Theorem C7_service_name e sd c i ev :
  emitted e sd c !! i = Some ev ->
  attributes_of sd i !! "service_name" = None ->
  data ev !! "service_name" =
  if decide (ServiceName e = EmptyString)
  then data (fresh (Builder e) (issued c + i)%nat) !! "service_name"
  else Some (VString (ServiceName e)).
Proof.
  intros Hev Hattr. destruct i as [|i].
  - rewrite emitted_span in Hev. injection Hev as <-.
    cbn [attributes_of] in Hattr.
    rewrite span_event_lookup, Hattr, Nat.add_0_r.
    rewrite span_struct_fields_other, service_fields_lookup by not_a_span_name.
    lookup_cases; naive_solver.
  - rewrite emitted_annotation in Hev. cbn [attributes_of] in Hattr.
    destruct (trace.SpanData.Annotations sd !! i) as [a|]; [|done].
    injection Hev as <-. simpl in Hattr.
    rewrite annotation_event_lookup, Hattr. cbn zeta.
    rewrite service_fields_lookup. lookup_cases; naive_solver.
Qed.

(** C8, amended: every key-value pair of an annotation's attributes is a
    field of its Annotation event, same key and same value. Every key-value
    pair of a span's attributes is a field of the Span event, except under
    the key [status_code] when the span's status code is not 0 and under the
    key [status_description] when its status message is not empty (the
    status is written after the attributes). *)
Theorem C8_attributes_verbatim e sd c i ev k v :
  emitted e sd c !! i = Some ev ->
  attributes_of sd i !! k = Some v ->
  (i = 0%nat -> k = "status_code" ->
   trace.Status.Code (trace.SpanData.Status sd) = 0) ->
  (i = 0%nat -> k = "status_description" ->
   trace.Status.Message (trace.SpanData.Status sd) = EmptyString) ->
  data ev !! k = Some v.
Proof.
  intros Hev Hattr Hcode Hmsg. destruct i as [|i].
  - rewrite emitted_span in Hev. injection Hev as <-.
    cbn [attributes_of] in Hattr. rewrite span_event_lookup, Hattr.
    repeat case_decide; try done;
      match goal with
      | H : _ /\ _ |- _ => destruct H as [-> Hne]; destruct Hne; auto
      end.
  - rewrite emitted_annotation in Hev. cbn [attributes_of] in Hattr.
    destruct (trace.SpanData.Annotations sd !! i) as [a|]; [|done].
    injection Hev as <-. simpl in Hattr.
    by rewrite annotation_event_lookup, Hattr.
Qed.

(** C9, amended: for a span whose [StartTime] is zero, the Span event's own
    timestamp is the zero time and the event has no [timestamp] field,
    provided neither the span's attributes nor the builder's fresh event
    has a field of that name. *)
Theorem C9_zero_start_no_timestamp e sd c :
  time.IsZero (trace.SpanData.StartTime sd) = true ->
  trace.SpanData.Attributes sd !! "timestamp" = None ->
  data (fresh (Builder e) (issued c)) !! "timestamp" = None ->
  exists ev, emitted e sd c !! 0%nat = Some ev /\
             time.IsZero (Timestamp ev) = true /\
             data ev !! "timestamp" = None.
Proof.
  intros Hz Hattr Hfresh. eexists. split; [apply emitted_span|]. split; [done|].
  rewrite span_event_lookup, Hattr, span_struct_fields_timestamp.
  rewrite honeycombSpan_Timestamp, Hz, service_fields_lookup.
  lookup_cases.
Qed.

End FieldClaims.

(** * The fields of the events of concrete spans *)

Section FieldExamples.
Import libhoney honeycomb honeycomb_views examples.

Abbreviation emitted64 := (honeycomb_views.emitted bits64 unrep0).

(** The example of section 8: a root span of 150 ms with the attribute
    [http.status = 200] gives one event, with [duration_ms = 150], the two
    identifiers, no [trace.parent_id] and the attribute. *)
Example section_8_example :
  let evs := emitted64 default_exporter span_150ms idle_client in
  length evs = 1%nat /\
  field_of evs 0 "duration_ms" = Some (VFloat64 (Float64.of_int 150)) /\
  field_of evs 0 "trace.trace_id" = Some (VString "01010101010101010101010101010101") /\
  field_of evs 0 "trace.span_id" = Some (VString "0202020202020202") /\
  field_of evs 0 "trace.parent_id" = None /\
  field_of evs 0 "http.status" = Some (VInt64 200).
Proof. repeat split; vm_compute; reflexivity. Qed.

(** C4 as stated fails: an annotation with message "cache miss" and an
    attribute named [name] yields an Annotation event whose [name] is the
    attribute's value, not the message. *)
Lemma C4_counterexample :
  trace.Annotation.Message <$> trace.SpanData.Annotations span_note_named !! 0%nat
    = Some "cache miss" /\
  field_of (emitted64 default_exporter span_note_named idle_client) 1 "name"
    = Some (VString "x").
Proof. split; vm_compute; reflexivity. Qed.

Lemma C4_witness :
  length (emitted64 default_exporter span_child idle_client) = 2%nat /\
  exists ev, emitted64 default_exporter span_child idle_client !! 1%nat = Some ev /\
             Timestamp ev = trace.Annotation.Time note /\
             data ev !! "trace.annotation" = Some (VBool true) /\
             data ev !! "name" = Some (VString "cache miss") /\
             data ev !! "trace.trace_id"
               = Some (VString "01010101010101010101010101010101") /\
             data ev !! "trace.parent_id" = Some (VString "0202020202020202").
Proof.
  destruct (C4_annotation_events bits64 unrep0 default_exporter span_child idle_client)
    as [Hlen Hann].
  split; [exact Hlen|].
  destruct (Hann 0%nat note eq_refl) as (ev & Hev & Htime & Hmarks).
  exists ev. split; [exact Hev|]. split; [exact Htime|].
  repeat split; apply Hmarks; try (vm_compute; reflexivity).
  - left.
  - right; left.
  - do 2 right; left.
  - do 3 right; left.
Defined.

(** C5 as stated fails: a root span (zero [ParentSpanID]) with an attribute
    named [trace.parent_id] yields a Span event that has the field. *)
Lemma C5_counterexample :
  trace.SpanData.ParentSpanID span_attr_parent_id = trace.SpanID_zero /\
  field_of (emitted64 default_exporter span_attr_parent_id idle_client) 0
    "trace.parent_id" = Some (VString "x").
Proof. split; vm_compute; reflexivity. Qed.

Lemma C5_witness :
  exists ev, emitted64 default_exporter span_child idle_client !! 0%nat = Some ev /\
             data ev !! "trace.parent_id" = Some (VString "0303030303030303").
Proof.
  destruct (C5_parent_id bits64 unrep0 default_exporter span_child idle_client)
    as (ev & Hev & _ & Hparent); [vm_compute; reflexivity ..|].
  exists ev. split; [exact Hev|]. apply Hparent. intros [=].
Defined.

(** C6 as stated fails: a span with status code 0 and an attribute named
    [status_code] yields a Span event that has a [status_code] field. *)
Lemma C6_counterexample :
  trace.Status.Code (trace.SpanData.Status span_attr_status_code) = 0 /\
  field_of (emitted64 default_exporter span_attr_status_code idle_client) 0
    "status_code" = Some (VInt64 7).
Proof. split; vm_compute; reflexivity. Qed.

Lemma C6_witness :
  exists ev, emitted64 default_exporter span_child idle_client !! 0%nat = Some ev /\
             data ev !! "status_code" = Some (VInt32 5) /\
             data ev !! "status_description" = Some (VString "not found").
Proof.
  destruct (C6_status_fields bits64 unrep0 default_exporter span_child idle_client)
    as (ev & Hev & Hcode & Hmsg & _).
  exists ev. split; [exact Hev|]. split; [apply Hcode|apply Hmsg]; intros [=].
Defined.

(** C7 as stated fails: with service name "svc", a span with an attribute
    named [service_name] yields a Span event whose [service_name] is the
    attribute's value. *)
Lemma C7_counterexample :
  ServiceName (unsampled "svc") = "svc" /\
  field_of (emitted64 (unsampled "svc") span_attr_service_name idle_client) 0
    "service_name" = Some (VString "other").
Proof. split; vm_compute; reflexivity. Qed.

Lemma C7_witness :
  exists ev, emitted64 (unsampled "svc") span_child idle_client !! 1%nat = Some ev /\
             data ev !! "service_name" = Some (VString "svc").
Proof.
  eexists. split; [vm_compute; reflexivity|].
  refine (C7_service_name bits64 unrep0 (unsampled "svc") span_child
            idle_client 1 _ _ _); vm_compute; reflexivity.
Defined.

(** C8 as stated fails: a span with status code 2 and the attribute
    [status_code = "x"] yields a Span event whose [status_code] is 2. *)
Lemma C8_counterexample :
  trace.SpanData.Attributes span_attr_status_code_failed !! "status_code"
    = Some (VString "x") /\
  field_of (emitted64 default_exporter span_attr_status_code_failed idle_client) 0
    "status_code" = Some (VInt32 2).
Proof. split; vm_compute; reflexivity. Qed.

Lemma C8_witness :
  exists ev, emitted64 default_exporter span_child idle_client !! 0%nat = Some ev /\
             data ev !! "http.status" = Some (VInt64 404).
Proof.
  eexists. split; [vm_compute; reflexivity|].
  refine (C8_attributes_verbatim bits64 unrep0 default_exporter span_child
            idle_client 0 _ "http.status" (VInt64 404) _ _ _ _);
    try (vm_compute; reflexivity); intros _ [=].
Defined.

(** C9 as stated fails: a span whose [StartTime] is zero and that has an
    attribute named [timestamp] yields a Span event with a [timestamp]
    field. *)
Lemma C9_counterexample :
  time.IsZero (trace.SpanData.StartTime span_unstarted_attr_timestamp) = true /\
  field_of (emitted64 default_exporter span_unstarted_attr_timestamp idle_client) 0
    "timestamp" = Some (VString "x").
Proof. split; vm_compute; reflexivity. Qed.

Lemma C9_witness :
  exists ev, emitted64 default_exporter span_unstarted idle_client !! 0%nat = Some ev /\
             time.IsZero (Timestamp ev) = true /\
             data ev !! "timestamp" = None.
Proof.
  apply (C9_zero_start_no_timestamp bits64 unrep0 default_exporter span_unstarted
           idle_client); vm_compute; reflexivity.
Defined.

End FieldExamples.

(** * Rounding to binary64

    What the Standard Library's executable rounding does on the mantissas
    and exponents the exporter meets: the result is a normal number with
    the sign it was given. *)

Module round_facts.

Abbreviation fexp := (SpecFloat.fexp Float64.prec Float64.emax).
Abbreviation shr_fexp := (SpecFloat.shr_fexp Float64.prec Float64.emax).
Abbreviation binary_round_aux :=
  (SpecFloat.binary_round_aux Float64.prec Float64.emax).

Lemma fexp_normal (x : Z) : -1021 <= x -> fexp x = x - 53.
Proof. unfold SpecFloat.fexp, emin, Float64.prec, Float64.emax. lia. Qed.

Lemma digits2_pos_bounds (m : positive) :
  2 ^ (Zpos (digits2_pos m) - 1) <= Zpos m < 2 ^ Zpos (digits2_pos m).
Proof.
  induction m as [m IH|m IH|]; cbn [digits2_pos]; [| |simpl; lia].
  all: rewrite Pos2Z.inj_succ.
  all: replace (Z.succ (Zpos (digits2_pos m)) - 1)
         with (Z.succ (Zpos (digits2_pos m) - 1)) by lia.
  all: rewrite !Z.pow_succ_r by lia; lia.
Qed.

(** The number of binary digits is determined by the power-of-two bracket. *)
Lemma Zdigits2_unique (m k : Z) :
  2 ^ (k - 1) <= m < 2 ^ k -> 0 < m -> Zdigits2 m = k.
Proof.
  intros Hk Hm. destruct m as [|p|p]; try lia. cbn [Zdigits2].
  pose proof (digits2_pos_bounds p) as Hp.
  set (a := Zpos (digits2_pos p)) in *. assert (0 < a) by (unfold a; lia).
  assert (0 < k).
  { destruct (Z.lt_trichotomy k 0) as [Hlt|[->|Hgt]]; [|simpl in Hk; lia|done].
    rewrite (Z.pow_neg_r 2 k) in Hk by lia. lia. }
  assert (a - 1 < k) by (apply (Z.pow_lt_mono_r_iff 2); lia).
  assert (k - 1 < a) by (apply (Z.pow_lt_mono_r_iff 2); lia).
  lia.
Qed.

Lemma Zdigits2_bounds (m : Z) :
  0 < m -> 2 ^ (Zdigits2 m - 1) <= m < 2 ^ Zdigits2 m.
Proof. destruct m; try lia. intros _. apply digits2_pos_bounds. Qed.

Lemma Zdigits2_pos (m : Z) : 0 < m -> 0 < Zdigits2 m.
Proof. destruct m; simpl; lia. Qed.

(** One step of the shift halves the mantissa. *)
Lemma shr_1_m (mrs : shr_record) :
  0 <= shr_m mrs -> shr_m (shr_1 mrs) = shr_m mrs / 2.
Proof.
  destruct mrs as [m r s]. cbn [shr_m]. intros Hm.
  destruct m as [|[p|p|]|p]; cbn [shr_1 shr_m]; try lia; try done.
  - rewrite Pos2Z.inj_xI. apply Z.div_unique with (r := 1); lia.
  - rewrite Pos2Z.inj_xO. apply Z.div_unique with (r := 0); lia.
Qed.

Lemma pow2_xO (p : positive) : 2 ^ Zpos p~0 = 2 ^ Zpos p * 2 ^ Zpos p.
Proof.
  replace (Zpos p~0) with (Zpos p + Zpos p) by lia.
  apply Z.pow_add_r; lia.
Qed.

Lemma pow2_xI (p : positive) : 2 ^ Zpos p~1 = 2 * (2 ^ Zpos p * 2 ^ Zpos p).
Proof.
  replace (Zpos p~1) with (Z.succ (Zpos p + Zpos p)) by lia.
  rewrite Z.pow_succ_r, Z.pow_add_r; lia.
Qed.

Lemma iter_shr_1_m (p : positive) (mrs : shr_record) :
  0 <= shr_m mrs ->
  shr_m (SpecFloat.iter_pos shr_1 p mrs) = shr_m mrs / 2 ^ Zpos p.
Proof.
  revert mrs. induction p as [p IH|p IH|]; intros mrs Hm;
    cbn [SpecFloat.iter_pos].
  - assert (0 <= shr_m (shr_1 mrs))
      by (rewrite shr_1_m by done; apply Z.div_pos; lia).
    assert (0 <= shr_m (SpecFloat.iter_pos shr_1 p (shr_1 mrs)))
      by (rewrite IH by done; apply Z.div_pos; lia).
    rewrite !IH, shr_1_m by done.
    rewrite !Z.div_div by lia. by rewrite pow2_xI.
  - assert (0 <= shr_m (SpecFloat.iter_pos shr_1 p mrs))
      by (rewrite IH by done; apply Z.div_pos; lia).
    rewrite !IH by done. rewrite Z.div_div by lia. by rewrite pow2_xO.
  - rewrite shr_1_m by done. done.
Qed.

(** Shifting a mantissa down to 53 digits. *)
Lemma shr_fexp_normal (m e : Z) (l : location) :
  0 < m -> 53 <= Zdigits2 m -> -1021 <= Zdigits2 m + e ->
  exists mrs, shr_fexp m e l = (mrs, Zdigits2 m + e - 53) /\
              2 ^ 52 <= shr_m mrs < 2 ^ 53 /\
              shr_m mrs = m / 2 ^ (Zdigits2 m - 53).
Proof.
  intros Hm Hd He. unfold SpecFloat.shr_fexp.
  rewrite fexp_normal by done.
  pose proof (Zdigits2_bounds m Hm) as Hb.
  set (d := Zdigits2 m) in *.
  replace (d + e - 53 - e) with (d - 53) by lia.
  assert (Hrec : shr_m (shr_record_of_loc m l) = m)
    by (destruct l as [|[]]; done).
  destruct (d - 53) as [|n|n] eqn:Hn; [| |lia]; cbn [shr].
  - eexists. split; [f_equal; lia|]. rewrite Hrec.
    assert (d = 53) as Hd53 by lia. rewrite Hd53 in Hb.
    rewrite Z.pow_0_r, Z.div_1_r. change (53 - 1) with 52 in Hb. done.
  - eexists. split; [f_equal; lia|].
    rewrite iter_shr_1_m by (rewrite Hrec; lia). rewrite Hrec.
    split; [|done].
    assert (Hd' : d - 1 = 52 + Zpos n) by lia.
    assert (Hd'' : d = 53 + Zpos n) by lia.
    rewrite Hd' in Hb. rewrite Hd'' in Hb. rewrite !Z.pow_add_r in Hb by lia.
    split.
    + apply Z.div_le_lower_bound; lia.
    + apply Z.div_lt_upper_bound; lia.
Qed.

(** Rounding a positive mantissa of at least 53 digits whose value lies in
    the range of normal numbers gives a normal number with the given sign
    and a mantissa of exactly 53 digits. *)
Lemma binary_round_aux_normal (sx : bool) (mx ex : Z) (lx : location) :
  0 < mx -> 53 <= Zdigits2 mx ->
  -1021 <= Zdigits2 mx + ex <= 1023 ->
  exists m e,
    binary_round_aux sx mx ex lx = S754_finite sx m e /\
    2 ^ 52 <= Zpos m < 2 ^ 53 /\
    Zdigits2 mx + ex - 53 <= e <= Zdigits2 mx + ex - 52.
Proof.
  intros Hm Hd He. unfold SpecFloat.binary_round_aux.
  destruct (shr_fexp_normal mx ex lx Hm Hd) as (mrs1 & -> & Hb1 & _); [lia|].
  set (e1 := Zdigits2 mx + ex - 53) in *.
  set (m2 := round_nearest_even (shr_m mrs1) (loc_of_shr_record mrs1)).
  assert (Hm2 : m2 = shr_m mrs1 \/ m2 = shr_m mrs1 + 1).
  { unfold m2, round_nearest_even.
    destruct (loc_of_shr_record mrs1) as [|[]]; auto.
    destruct (Z.even _); auto. }
  assert (Hcase : m2 < 2 ^ 53 \/ m2 = 2 ^ 53) by lia.
  destruct Hcase as [Hlt|Heq].
  - assert (Hd2 : Zdigits2 m2 = 53)
      by (apply Zdigits2_unique; change (53 - 1) with 52; lia).
    destruct (shr_fexp_normal m2 e1 loc_Exact) as (mrs2 & -> & Hb2 & Hq2);
      [lia|lia|lia|].
    rewrite Hd2 in *. rewrite Z.sub_diag, Z.pow_0_r, Z.div_1_r in Hq2.
    destruct (shr_m mrs2) as [|m|m] eqn:Em; [lia| |lia].
    replace (53 + e1 - 53 <=? Float64.emax - Float64.prec) with true
      by (symmetry; apply Z.leb_le; unfold Float64.emax, Float64.prec; lia).
    exists m, (53 + e1 - 53). split; [done|]. split; lia.
  - assert (Hd2 : Zdigits2 m2 = 54)
      by (rewrite Heq; reflexivity).
    destruct (shr_fexp_normal m2 e1 loc_Exact) as (mrs2 & -> & Hb2 & Hq2);
      [lia|lia|lia|].
    rewrite Hd2 in *.
    destruct (shr_m mrs2) as [|m|m] eqn:Em; [lia| |lia].
    replace (54 + e1 - 53 <=? Float64.emax - Float64.prec) with true
      by (symmetry; apply Z.leb_le; unfold Float64.emax, Float64.prec; lia).
    exists m, (54 + e1 - 53). split; [done|]. split; lia.
Qed.

Lemma Pos_iter_xO (m k : positive) :
  Zpos (Pos.iter xO m k) = Zpos m * 2 ^ Zpos k.
Proof.
  induction k as [|k IH] using Pos.peano_ind.
  - simpl. lia.
  - rewrite Pos.iter_succ, Pos2Z.inj_xO, IH, Pos2Z.inj_succ, Z.pow_succ_r; lia.
Qed.

(** [float64(d)] of a non-zero 64-bit integer is a normal number with the
    sign of [d]. *)
Lemma of_int_normal (d : Z) :
  d <> 0 -> - 2 ^ 63 <= d <= 2 ^ 63 ->
  exists m e,
    Float64.of_int d = S754_finite (d <? 0) m e /\
    2 ^ 52 <= Zpos m < 2 ^ 53 /\ -52 <= e <= 12.
Proof.
  intros Hd Hr.
  assert (Hgen : forall (sx : bool) (p : positive), Zpos p <= 2 ^ 63 ->
            exists m e, binary_round Float64.prec Float64.emax sx p 0
                        = S754_finite sx m e /\
                        2 ^ 52 <= Zpos m < 2 ^ 53 /\ -52 <= e <= 12).
  { intros sx p Hp. unfold binary_round.
    pose proof (digits2_pos_bounds p) as Hb.
    set (dp := Zpos (digits2_pos p)) in *.
    assert (0 < dp) by (unfold dp; lia).
    assert (dp - 1 < 64).
    { apply (proj2 (Z.pow_lt_mono_r_iff 2 (dp - 1) 64 ltac:(lia) ltac:(lia))).
      eapply Z.le_lt_trans; [apply Hb|]. eapply Z.le_lt_trans; [apply Hp|]. done. }
    rewrite Z.add_0_r, fexp_normal by lia. unfold shl_align.
    rewrite Z.sub_0_r.
    destruct (dp - 53) as [|n|n] eqn:Hn.
    - destruct (binary_round_aux_normal sx (Zpos p) 0 loc_Exact)
        as (m & e & -> & Hm & He); cbn [Zdigits2]; fold dp; try lia.
      cbn [Zdigits2] in He. fold dp in He.
      exists m, e. split; [done|]. split; lia.
    - destruct (binary_round_aux_normal sx (Zpos p) 0 loc_Exact)
        as (m & e & -> & Hm & He); cbn [Zdigits2]; fold dp; try lia.
      cbn [Zdigits2] in He. fold dp in He.
      exists m, e. split; [done|]. split; lia.
    - assert (Hdig : Zdigits2 (Zpos (Pos.iter xO p n)) = 53).
      { apply Zdigits2_unique; [|lia]. rewrite Pos_iter_xO.
        change (53 - 1) with 52.
        replace 52 with (dp - 1 + Zpos n) by lia.
        replace 53 with (dp + Zpos n) by lia.
        rewrite !Z.pow_add_r by lia. nia. }
      destruct (binary_round_aux_normal sx (Zpos (Pos.iter xO p n)) (dp - 53)
                  loc_Exact) as (m & e & Heq & Hm & He); rewrite ?Hdig; try lia.
      rewrite Hn in Heq. rewrite Heq.
      exists m, e. split; [done|]. split; lia. }
  unfold Float64.of_int, binary_normalize.
  destruct d as [|p|p]; [done| |].
  - apply (Hgen false p). lia.
  - apply (Hgen true p). lia.
Qed.

(** The quotient of two normal numbers whose exponents are not far apart
    is a normal number, with the product of the signs. *)
Lemma div_normal (s1 s2 : bool) (m1 m2 : positive) (e1 e2 : Z) :
  2 ^ 52 <= Zpos m1 < 2 ^ 53 -> 2 ^ 52 <= Zpos m2 < 2 ^ 53 ->
  -900 <= e1 - e2 <= 900 ->
  exists m e,
    Float64.div (S754_finite s1 m1 e1) (S754_finite s2 m2 e2)
      = S754_finite (xorb s1 s2) m e /\
    2 ^ 52 <= Zpos m < 2 ^ 53.
Proof.
  intros H1 H2 He. unfold Float64.div, SFdiv, SFdiv_core_binary.
  rewrite (Zdigits2_unique (Zpos m1) 53), (Zdigits2_unique (Zpos m2) 53)
    by (change (53 - 1) with 52; lia).
  replace (53 + e1 - (53 + e2)) with (e1 - e2) by lia.
  rewrite fexp_normal by lia.
  replace (Z.min (e1 - e2 - 53) (e1 - e2)) with (e1 - e2 - 53) by lia.
  replace (e1 - e2 - (e1 - e2 - 53)) with 53 by lia.
  rewrite Z.shiftl_mul_pow2 by lia.
  destruct (Z.div_eucl (Zpos m1 * 2 ^ 53) (Zpos m2)) as [q r] eqn:Ediv.
  assert (Hq : q = Zpos m1 * 2 ^ 53 / Zpos m2)
    by (unfold Z.div; by rewrite Ediv).
  assert (Hlo : 2 ^ 52 <= q).
  { rewrite Hq. apply Z.div_le_lower_bound; [lia|].
    change (2 ^ 53) with (2 * 2 ^ 52) in *. nia. }
  assert (Hhi : q < 2 ^ 54).
  { rewrite Hq. apply Z.div_lt_upper_bound; [lia|].
    change (2 ^ 54) with (2 * 2 ^ 53). nia. }
  assert (Hdq : Zdigits2 q = 53 \/ Zdigits2 q = 54).
  { destruct (Z.lt_ge_cases q (2 ^ 53)).
    - left. apply Zdigits2_unique; [change (53 - 1) with 52|]; lia.
    - right. apply Zdigits2_unique; [change (54 - 1) with 53|]; lia. }
  destruct (binary_round_aux_normal (xorb s1 s2) q (e1 - e2 - 53)
              (new_location (Zpos m2) r)) as (m & e & -> & Hm & _); try lia.
  by exists m, e.
Qed.

(** Go's [float64(d) / float64(time.Millisecond)] for a non-zero duration:
    a normal number with the sign of the duration. *)
Lemma duration_quotient_normal (d : Z) :
  d <> 0 -> - 2 ^ 63 <= d <= 2 ^ 63 ->
  exists m e,
    Float64.div (Float64.of_int d) (Float64.of_int time.Millisecond)
      = S754_finite (d <? 0) m e /\
    2 ^ 52 <= Zpos m < 2 ^ 53.
Proof.
  intros Hd Hr.
  destruct (of_int_normal d Hd Hr) as (m1 & e1 & -> & Hm1 & He1).
  change (Float64.of_int time.Millisecond)
    with (S754_finite false 8589934592000000 (-33)).
  destruct (div_normal (d <? 0) false m1 8589934592000000 e1 (-33))
    as (m & e & -> & Hm); [lia|lia|lia|].
  rewrite xorb_false_r. by exists m, e.
Qed.

(** ** Exact cases *)

Lemma shr_1_exact (mrs : shr_record) :
  exact_record mrs -> (2 | shr_m mrs) -> exact_record (shr_1 mrs).
Proof.
  destruct mrs as [m r s]. intros (Hm & Hr & Hs) [c Hc]. cbn in *. subst r s.
  destruct m as [|[p|p|]|p]; cbn; unfold exact_record; cbn;
    repeat split; try lia; try done.
Qed.

Lemma iter_shr_1_exact (p : positive) (mrs : shr_record) :
  exact_record mrs -> (2 ^ Zpos p | shr_m mrs) ->
  exact_record (SpecFloat.iter_pos shr_1 p mrs).
Proof.
  revert mrs. induction p as [p IH|p IH|]; intros mrs Hex Hdiv;
    cbn [SpecFloat.iter_pos].
  - rewrite pow2_xI in Hdiv. destruct Hdiv as [c Hc].
    assert (Hm := proj1 Hex).
    assert (H1 : exact_record (shr_1 mrs))
      by (apply shr_1_exact; [done|]; exists (c * (2 ^ Zpos p * 2 ^ Zpos p)); lia).
    assert (E1 : shr_m (shr_1 mrs) = c * (2 ^ Zpos p * 2 ^ Zpos p)).
    { rewrite shr_1_m by done. rewrite Hc.
      replace (c * (2 * (2 ^ Zpos p * 2 ^ Zpos p)))
        with (c * (2 ^ Zpos p * 2 ^ Zpos p) * 2) by lia.
      apply Z.div_mul. lia. }
    assert (H2 : exact_record (SpecFloat.iter_pos shr_1 p (shr_1 mrs)))
      by (apply IH; [done|]; rewrite E1; exists (c * 2 ^ Zpos p); lia).
    apply IH; [done|].
    rewrite iter_shr_1_m, E1 by apply H1.
    exists c. rewrite Z.mul_assoc. apply Z.div_mul. lia.
  - rewrite pow2_xO in Hdiv. destruct Hdiv as [c Hc].
    assert (Hm := proj1 Hex).
    assert (H1 : exact_record (SpecFloat.iter_pos shr_1 p mrs))
      by (apply IH; [done|]; exists (c * 2 ^ Zpos p); lia).
    apply IH; [done|].
    rewrite iter_shr_1_m, Hc by done.
    exists c. rewrite Z.mul_assoc. apply Z.div_mul. lia.
  - apply shr_1_exact; [done|]. by rewrite Z.pow_1_r in Hdiv.
Qed.

Lemma exact_record_loc (mrs : shr_record) :
  exact_record mrs -> loc_of_shr_record mrs = loc_Exact.
Proof. destruct mrs as [m r s]. intros (_ & Hr & Hs). cbn in *. by subst. Qed.

(** Rounding loses nothing when the digits shifted out are all zero. *)
Lemma binary_round_aux_exact (sx : bool) (mx ex n : Z) :
  0 < mx -> 0 <= n -> Zdigits2 mx = 53 + n -> (2 ^ n | mx) ->
  -1021 <= Zdigits2 mx + ex <= 1023 ->
  exists m,
    binary_round_aux sx mx ex loc_Exact = S754_finite sx m (ex + n) /\
    Zpos m * 2 ^ n = mx.
Proof.
  intros Hm Hn Hd Hdiv He. unfold SpecFloat.binary_round_aux.
  assert (Hb := Zdigits2_bounds mx Hm). rewrite Hd in Hb.
  replace (53 + n - 1) with (52 + n) in Hb by lia.
  rewrite !Z.pow_add_r in Hb by lia.
  assert (0 < 2 ^ n) by (apply Z.pow_pos_nonneg; lia).
  destruct Hdiv as [c Hc].
  assert (Hc52 : 2 ^ 52 <= c < 2 ^ 53) by nia.
  assert (Hfirst : exists mrs, shr_fexp mx ex loc_Exact = (mrs, ex + n) /\
                               exact_record mrs /\ shr_m mrs = c).
  { unfold SpecFloat.shr_fexp. rewrite fexp_normal by lia.
    replace (Zdigits2 mx + ex - 53 - ex) with n by lia.
    destruct n as [|p|p]; [| |lia]; cbn [shr shr_record_of_loc].
    - eexists. split; [by rewrite Z.add_0_r|]. cbn. unfold exact_record. cbn.
      rewrite Z.pow_0_r in Hc. repeat split; lia.
    - eexists. split; [done|]. split.
      + apply iter_shr_1_exact; [unfold exact_record; cbn; repeat split; lia|].
        cbn. by exists c.
      + rewrite iter_shr_1_m by (cbn; lia). cbn [shr_m]. rewrite Hc.
        apply Z.div_mul. lia. }
  destruct Hfirst as (mrs1 & -> & Hex1 & Hm1).
  rewrite (exact_record_loc _ Hex1). cbn [round_nearest_even]. rewrite Hm1.
  unfold SpecFloat.shr_fexp.
  rewrite (Zdigits2_unique c 53) by (change (53 - 1) with 52; lia).
  rewrite fexp_normal by lia.
  replace (53 + (ex + n) - 53 - (ex + n)) with 0 by lia.
  cbn [shr shr_record_of_loc shr_m].
  destruct c as [|m|m]; [lia| |lia].
  replace (ex + n <=? Float64.emax - Float64.prec) with true
    by (symmetry; apply Z.leb_le; unfold Float64.emax, Float64.prec; lia).
  exists m. split; [done|lia].
Qed.

(** [float64(d)] is exact for an integer below [2 ^ 53] in magnitude. *)
Lemma of_int_exact (d : Z) :
  d <> 0 -> Z.abs d < 2 ^ 53 ->
  exists m e,
    Float64.of_int d = S754_finite (d <? 0) m e /\
    2 ^ 52 <= Zpos m < 2 ^ 53 /\ -52 <= e <= 0 /\
    Zpos m = Z.abs d * 2 ^ (- e).
Proof.
  intros Hd Hr.
  assert (Hgen : forall (sx : bool) (p : positive), Zpos p < 2 ^ 53 ->
            exists m e, binary_round Float64.prec Float64.emax sx p 0
                        = S754_finite sx m e /\
                        2 ^ 52 <= Zpos m < 2 ^ 53 /\ -52 <= e <= 0 /\
                        Zpos m = Zpos p * 2 ^ (- e)).
  { intros sx p Hp. unfold binary_round.
    pose proof (digits2_pos_bounds p) as Hb.
    set (dp := Zpos (digits2_pos p)) in *.
    assert (0 < dp) by (unfold dp; lia).
    assert (dp - 1 < 53)
      by (apply (proj2 (Z.pow_lt_mono_r_iff 2 (dp - 1) 53 ltac:(lia) ltac:(lia)));
          lia).
    rewrite Z.add_0_r, fexp_normal by lia. unfold shl_align.
    rewrite Z.sub_0_r.
    destruct (dp - 53) as [|n|n] eqn:Hn; [|lia|].
    - assert (dp = 53) as Hdp by lia. rewrite Hdp in Hb.
      change (53 - 1) with 52 in Hb.
      destruct (binary_round_aux_exact sx (Zpos p) 0 0)
        as (m & -> & Hm); cbn [Zdigits2]; fold dp; try lia.
      { apply Z.divide_1_l. }
      exists m, (0 + 0). rewrite Z.pow_0_r in Hm. cbn. split; [done|]. lia.
    - assert (Hval : Zpos (Pos.iter xO p n) = Zpos p * 2 ^ (53 - dp))
        by (rewrite Pos_iter_xO; f_equal; f_equal; lia).
      assert (Hrange : 2 ^ 52 <= Zpos (Pos.iter xO p n) < 2 ^ 53).
      { rewrite Hval.
        assert (E52 : 2 ^ 52 = 2 ^ (dp - 1) * 2 ^ (53 - dp))
          by (rewrite <- Z.pow_add_r by lia; f_equal; lia).
        assert (E53 : 2 ^ 53 = 2 ^ dp * 2 ^ (53 - dp))
          by (rewrite <- Z.pow_add_r by lia; f_equal; lia).
        rewrite E52, E53.
        assert (0 < 2 ^ (53 - dp)) by (apply Z.pow_pos_nonneg; lia). nia. }
      assert (Hdig : Zdigits2 (Zpos (Pos.iter xO p n)) = 53)
        by (apply Zdigits2_unique; [change (53 - 1) with 52|]; lia).
      destruct (binary_round_aux_exact sx (Zpos (Pos.iter xO p n)) (dp - 53) 0)
        as (m & Heq & Hm); rewrite ?Hdig; try lia.
      { apply Z.divide_1_l. }
      rewrite Hn in Heq. rewrite Heq. rewrite Z.pow_0_r, Z.mul_1_r in Hm.
      exists m, (Zneg n + 0). split; [done|]. rewrite Hm.
      replace (- (Zneg n + 0)) with (53 - dp) by lia. lia. }
  unfold Float64.of_int, binary_normalize.
  destruct d as [|p|p]; [done| |].
  - apply (Hgen false p). lia.
  - apply (Hgen true p). lia.
Qed.

(** An exact quotient of two normal numbers is computed exactly. *)
Lemma div_exact (s1 s2 : bool) (m1 m2 : positive) (e1 e2 c : Z) :
  2 ^ 52 <= Zpos m1 < 2 ^ 53 -> 2 ^ 52 <= Zpos m2 < 2 ^ 53 ->
  -900 <= e1 - e2 <= 900 ->
  Zpos m1 * 2 ^ 53 = c * Zpos m2 -> (2 | c) ->
  exists m n,
    Float64.div (S754_finite s1 m1 e1) (S754_finite s2 m2 e2)
      = S754_finite (xorb s1 s2) m (e1 - e2 - 53 + n) /\
    0 <= n <= 1 /\ Zpos m * 2 ^ n = c.
Proof.
  intros H1 H2 He Hc Heven. unfold Float64.div, SFdiv, SFdiv_core_binary.
  rewrite (Zdigits2_unique (Zpos m1) 53), (Zdigits2_unique (Zpos m2) 53)
    by (change (53 - 1) with 52; lia).
  replace (53 + e1 - (53 + e2)) with (e1 - e2) by lia.
  rewrite fexp_normal by lia.
  replace (Z.min (e1 - e2 - 53) (e1 - e2)) with (e1 - e2 - 53) by lia.
  replace (e1 - e2 - (e1 - e2 - 53)) with 53 by lia.
  rewrite Z.shiftl_mul_pow2 by lia.
  destruct (Z.div_eucl (Zpos m1 * 2 ^ 53) (Zpos m2)) as [q r] eqn:Ediv.
  assert (Hq : q = c /\ r = 0).
  { assert (Eq : q = Zpos m1 * 2 ^ 53 / Zpos m2)
      by (unfold Z.div; by rewrite Ediv).
    assert (Er : r = (Zpos m1 * 2 ^ 53) mod Zpos m2)
      by (unfold Z.modulo; by rewrite Ediv).
    rewrite Eq, Er, Hc. split; [apply Z.div_mul|apply Z.mod_mul]; lia. }
  destruct Hq as [-> ->].
  assert (Hlo : 2 ^ 52 <= c) by (change (2 ^ 53) with (2 * 2 ^ 52) in *; nia).
  assert (Hhi : c < 2 ^ 54) by (change (2 ^ 54) with (2 * 2 ^ 53); nia).
  assert (Hloc : new_location (Zpos m2) 0 = loc_Exact)
    by (unfold new_location; by destruct (Z.even _)).
  rewrite Hloc.
  destruct (Z.lt_ge_cases c (2 ^ 53)).
  - destruct (binary_round_aux_exact (xorb s1 s2) c (e1 - e2 - 53) 0)
      as (m & -> & Hm); try lia.
    + apply Zdigits2_unique; [change (53 - 1) with 52|]; lia.
    + apply Z.divide_1_l.
    + rewrite (Zdigits2_unique c 53) by (change (53 - 1) with 52; lia). lia.
    + exists m, 0. split; [done|]. split; [lia|done].
  - destruct (binary_round_aux_exact (xorb s1 s2) c (e1 - e2 - 53) 1)
      as (m & -> & Hm); try lia.
    + apply Zdigits2_unique; [change (53 + 1 - 1) with 53|]; lia.
    + done.
    + rewrite (Zdigits2_unique c 54) by (change (54 - 1) with 53; lia). lia.
    + exists m, 1. split; [done|]. split; [lia|done].
Qed.

(** A duration of a whole number [k] of milliseconds, below [2 ^ 53]
    nanoseconds in magnitude, gives exactly [k]. *)
Lemma whole_milliseconds_exact (k : Z) :
  Z.abs (k * 1000000) < 2 ^ 53 ->
  exists q,
    Float64.to_Q (Float64.div (Float64.of_int (k * 1000000))
                              (Float64.of_int time.Millisecond)) = Some q /\
    (q == inject_Z k)%Q.
Proof.
  intros Hr. destruct (Z.eq_dec k 0) as [->|Hk].
  { exists 0%Q. split; [reflexivity|done]. }
  destruct (of_int_exact (k * 1000000)) as (m1 & e1 & -> & Hm1 & He1 & Hv1);
    [lia|done|].
  change (Float64.of_int time.Millisecond)
    with (S754_finite false 8589934592000000 (-33)).
  assert (Hpow : 0 < 2 ^ (- e1)) by (apply Z.pow_pos_nonneg; lia).
  destruct (div_exact (k * 1000000 <? 0) false m1 8589934592000000 e1 (-33)
              (Z.abs k * 2 ^ (- e1) * 2 ^ 20))
    as (m & n & -> & Hn & Hm); [lia|lia|lia| | |].
  { rewrite Hv1, Z.abs_mul. change (Z.abs 1000000) with 1000000.
    change (Zpos 8589934592000000) with (1000000 * 2 ^ 33).
    change (2 ^ 53) with (2 ^ 20 * 2 ^ 33). ring. }
  { exists (Z.abs k * 2 ^ (- e1) * 2 ^ 19). change (2 ^ 20) with (2 ^ 19 * 2). ring. }
  rewrite xorb_false_r.
  assert (Hsign : (k * 1000000 <? 0) = (k <? 0))
    by (destruct (Z.ltb_spec k 0), (Z.ltb_spec (k * 1000000) 0); lia).
  rewrite Hsign.
  assert (Hm' : Zpos m = Z.abs k * 2 ^ (20 - e1 - n)).
  { assert (E : 2 ^ (- e1) * 2 ^ 20 = 2 ^ (20 - e1 - n) * 2 ^ n)
      by (rewrite <- !Z.pow_add_r by lia; f_equal; lia).
    assert (0 < 2 ^ n) by (apply Z.pow_pos_nonneg; lia).
    rewrite <- Z.mul_assoc, E, Z.mul_assoc in Hm.
    by apply Z.mul_cancel_r in Hm; [|lia]. }
  destruct (e1 - -33 - 53 + n) as [|p|p] eqn:Ee; [lia|lia|].
  eexists. split; [reflexivity|].
  unfold Qeq. cbn [Qnum Qden inject_Z]. rewrite Pos2Z.inj_pow, Hm'.
  replace (20 - e1 - n) with (Zpos p) by lia.
  destruct (Z.ltb_spec k 0); cbn [cond_Zopp]; lia.
Qed.

End round_facts.

(** * Sampling *)

Module float_facts.

Lemma Qfloor_pos_pow2 (m p : positive) :
  Qfloor (Qmake (Zpos m) (2 ^ p)%positive) = Z.shiftr (Zpos m) (Zpos p).
Proof.
  unfold Qfloor. rewrite Z.shiftr_div_pow2 by lia.
  by rewrite Pos2Z.inj_pow.
Qed.

(** Go's conversion of a non-negative float to an integer is the floor of
    the number the float stands for. *)
Lemma trunc_is_floor (x : float64) (n : Z) (q : Q) :
  Float64.trunc x = Some n -> Float64.to_Q x = Some q -> (0 <= q)%Q ->
  n = Qfloor q.
Proof.
  destruct x as [s| | |s m e]; try done; cbn [Float64.trunc Float64.to_Q].
  - intros [= <-] [= <-] _. done.
  - intros [= <-] [= <-] Hq. destruct s.
    + exfalso. destruct e; unfold Qle in Hq; cbn in Hq; lia.
    + cbn [cond_Zopp]. destruct e as [|p|p].
      * by rewrite Qfloor_Z, Z.shiftl_mul_pow2.
      * by rewrite Qfloor_Z, Z.shiftl_mul_pow2.
      * symmetry. apply Qfloor_pos_pow2.
Qed.

End float_facts.

Section SamplingClaims.
Import libhoney libhoney_facts honeycomb honeycomb_views honeycomb_facts
  float_facts examples.

Variable uint_bits : Z.
Variable uint_unrepresentable : float64 -> Z.

Abbreviation emitted := (honeycomb_views.emitted uint_bits uint_unrepresentable).

(** Every event of one call has the same rule for its sample rate. *)
Lemma emitted_SampleRate e sd c i ev :
  emitted e sd c !! i = Some ev ->
  SampleRate ev =
  sample_rate_of uint_bits uint_unrepresentable e
    (SampleRate (fresh (Builder e) (issued c + i)%nat)).
Proof.
  destruct i as [|i].
  - rewrite emitted_span, Nat.add_0_r. by intros [= <-].
  - rewrite emitted_annotation.
    destruct (trace.SpanData.Annotations sd !! i); by intros [= <-].
Qed.

(** X9: The comment in [NewExporter]: the default sample rate is 1. A new
    exporter stamps the sample rate 1 on every event. *)
Lemma NewExporter_SampleRate builder sd c i ev :
  1 <= uint_bits ->
  emitted (NewExporter builder) sd c !! i = Some ev ->
  SampleRate ev = 1.
Proof.
  intros Hbits Hev. rewrite (emitted_SampleRate _ _ _ _ _ Hev).
  unfold sample_rate_of, uint_of_float64, NewExporter. cbn [SampleFraction].
  assert (E0 : Float64.eqb (Float64.of_int 1) Float64.zero = false)
    by (vm_compute; reflexivity).
  assert (E1 : Float64.trunc (Float64.div (Float64.of_int 1) (Float64.of_int 1))
               = Some 1)
    by (vm_compute; reflexivity).
  rewrite E0, E1.
  assert (2 ^ 1 <= 2 ^ uint_bits) by (apply Z.pow_le_mono_r; lia).
  destruct (Z.ltb_spec 1 (2 ^ uint_bits)); [done|lia].
Qed.

(** C1, amended: for an exporter whose [SampleFraction] is not 0, the
    sample rate of every event submitted (the Span event and the Annotation
    events) is the float64 quotient [1 / SampleFraction] with its fraction
    discarded, that is rounded down and not to the nearest integer,
    whenever that quotient is finite, not negative and below two to the
    width of [uint]. *)
Theorem C1_SampleRate_truncated e sd c q i ev :
  Float64.eqb (SampleFraction e) Float64.zero = false ->
  Float64.to_Q (Float64.div (Float64.of_int 1) (SampleFraction e)) = Some q ->
  (0 <= q)%Q ->
  (q < inject_Z (2 ^ uint_bits))%Q ->
  emitted e sd c !! i = Some ev ->
  SampleRate ev = Qfloor q.
Proof.
  intros Hnz Hq Hq0 Hqmax Hev.
  rewrite (emitted_SampleRate _ _ _ _ _ Hev).
  unfold sample_rate_of, uint_of_float64. rewrite Hnz.
  destruct (Float64.trunc _) as [n|] eqn:Hn.
  - pose proof (trunc_is_floor _ _ _ Hn Hq Hq0) as ->.
    assert (0 <= Qfloor q) by exact (Qfloor_resp_le 0 q Hq0).
    assert (Qfloor q < 2 ^ uint_bits).
    { apply Z.nle_gt. intros Hle.
      rewrite Zle_Qle in Hle. pose proof (Qfloor_le q) as Hfl.
      apply Qlt_not_le in Hqmax. apply Hqmax.
      exact (Qle_trans _ _ _ Hle Hfl). }
    by rewrite (proj2 (Z.leb_le _ _)), (proj2 (Z.ltb_lt _ _)).
  - by destruct (Float64.div _ _).
Qed.

(** C2: for an exporter whose [SampleFraction] equals 0, [ExportSpan]
    (and with it [exportAnnotation], once per annotation) completes and
    submits its events, every event keeps the sample rate that the builder
    gave it, and the conversion of [1 / SampleFraction] is not performed:
    the outcome does not depend on how the platform converts floats. *)
Theorem C2_zero_fraction_keeps_SampleRate e sd c :
  Float64.eqb (SampleFraction e) Float64.zero = true ->
  length (emitted e sd c) = S (length (trace.SpanData.Annotations sd)) /\
  (forall i ev, emitted e sd c !! i = Some ev ->
     SampleRate ev = SampleRate (fresh (Builder e) (issued c + i)%nat)) /\
  (forall bits' unrep',
     honeycomb.ExportSpan bits' unrep' e sd c =
     honeycomb.ExportSpan uint_bits uint_unrepresentable e sd c).
Proof.
  intros Hz. split; [apply emitted_length|]. split.
  - intros i ev Hev. rewrite (emitted_SampleRate _ _ _ _ _ Hev).
    unfold sample_rate_of. by rewrite Hz.
  - intros bits' unrep'. rewrite !ExportSpan_spec.
    unfold span_event, annotation_event, sample_rate_of. by rewrite Hz.
Qed.

End SamplingClaims.

(** * Sampling with concrete exporters *)

Section SamplingExamples.
Import libhoney honeycomb honeycomb_views examples.

(** C1 as stated fails. With [SampleFraction = 0.625] the quotient is 1.6,
    whose nearest integer is 2, and both the Span event and the Annotation
    event get the sample rate 1. With [SampleFraction = 1.0 / 93] the
    float64 quotient is just below 93, whose nearest integer is 93, and the
    events get the sample rate 92. *)
Lemma C1_counterexample :
  (Float64.valid f0625 = true /\
   Float64.eqb f0625 Float64.zero = false /\
   spec_SampleRate f0625 = Some 2 /\
   SampleRate <$> emitted bits64 unrep0 (sampling f0625) span_child idle_client
     = [1; 1]) /\
  (Float64.valid f_1_93 = true /\
   Float64.eqb f_1_93 Float64.zero = false /\
   spec_SampleRate f_1_93 = Some 93 /\
   SampleRate <$> emitted bits64 unrep0 (sampling f_1_93) span_child idle_client
     = [92; 92]).
Proof. repeat split; vm_compute; reflexivity. Qed.

Lemma C1_witness :
  exists ev,
    emitted bits64 unrep0 (sampling f0625) span_child idle_client !! 1%nat
      = Some ev /\
    SampleRate ev = 1.
Proof.
  eexists. split; [vm_compute; reflexivity|].
  refine (C1_SampleRate_truncated bits64 unrep0 (sampling f0625) span_child
            idle_client (Qmake 7205759403792794 4503599627370496) 1 _ _ _ _ _ _).
  - vm_compute; reflexivity.
  - vm_compute; reflexivity.
  - vm_compute; intros [=].
  - vm_compute; reflexivity.
  - vm_compute; reflexivity.
Defined.

(** Negative zero is zero too: [-0 != 0] is false in Go. *)
Example negative_zero_keeps_SampleRate :
  SampleRate <$> emitted bits64 unrep0 (sampling (S754_zero true)) span_child
                   idle_client
    = [1; 1].
Proof. vm_compute. reflexivity. Qed.

Lemma C2_witness :
  Float64.eqb (SampleFraction (exporter_of Float64.zero "svc")) Float64.zero = true /\
  exists ev,
    emitted bits64 unrep0 (exporter_of Float64.zero "svc") span_child idle_client
      !! 1%nat = Some ev /\
    SampleRate ev = SampleRate plain_event.
Proof.
  split; [reflexivity|].
  eexists. split; [vm_compute; reflexivity|].
  refine (proj1 (proj2 (C2_zero_fraction_keeps_SampleRate bits64 unrep0
                          (exporter_of Float64.zero "svc") span_child idle_client
                          eq_refl)) 1%nat _ _).
  vm_compute; reflexivity.
Defined.

End SamplingExamples.

(** * Durations *)

Section DurationFacts.
Import honeycomb honeycomb_views round_facts examples.

Lemma Sub_range (t u : time.Time) : - 2 ^ 63 <= time.Sub t u <= 2 ^ 63.
Proof.
  unfold time.Sub, time.minDuration, time.maxDuration.
  repeat case_match; lia.
Qed.

Lemma Sub_exact (t u : time.Time) :
  - 2 ^ 63 <= time.ns t - time.ns u < 2 ^ 63 ->
  time.Sub t u = time.ns t - time.ns u.
Proof.
  unfold time.Sub, time.minDuration, time.maxDuration.
  repeat case_match; lia.
Qed.

Lemma Sub_negative (t u : time.Time) :
  time.ns t < time.ns u -> time.Sub t u < 0.
Proof.
  unfold time.Sub, time.minDuration, time.maxDuration.
  repeat case_match; lia.
Qed.

Lemma honeycombSpan_DurationMs (sd : trace.SpanData.t) :
  Span.DurationMs (honeycombSpan sd) =
  if negb (time.IsZero (trace.SpanData.StartTime sd)) &&
     negb (time.IsZero (trace.SpanData.EndTime sd))
  then Float64.div
         (Float64.of_int (time.Sub (trace.SpanData.EndTime sd)
                                   (trace.SpanData.StartTime sd)))
         (Float64.of_int time.Millisecond)
  else Float64.zero.
Proof.
  unfold honeycombSpan. case_bool_decide; by destruct (negb _ && negb _).
Qed.

(** A difference of a whole number of milliseconds, below [2 ^ 53]
    nanoseconds in magnitude, is reported exactly. *)
Lemma DurationMs_whole_milliseconds (sd : trace.SpanData.t) (k : Z) :
  time.IsZero (trace.SpanData.StartTime sd) = false ->
  time.IsZero (trace.SpanData.EndTime sd) = false ->
  time.ns (trace.SpanData.EndTime sd) - time.ns (trace.SpanData.StartTime sd)
    = k * 1000000 ->
  Z.abs (k * 1000000) < 2 ^ 53 ->
  exists q, Float64.to_Q (Span.DurationMs (honeycombSpan sd)) = Some q /\
            (q == spec_DurationMs sd)%Q.
Proof.
  intros Hs He Hk Hr. rewrite honeycombSpan_DurationMs, Hs, He. cbn [negb andb].
  assert (Hpow : 2 ^ 53 < 2 ^ 63) by done.
  rewrite Sub_exact, Hk by lia.
  destruct (whole_milliseconds_exact k Hr) as (q & Hq & Hqk).
  exists q. split; [done|]. rewrite Hqk.
  unfold spec_DurationMs. rewrite Hk. unfold Qeq. cbn [Qnum Qden inject_Z]. lia.
Qed.

End DurationFacts.

(** * The client across calls, and where fields come from *)

Module field_facts.
Import libhoney honeycomb honeycomb_views event_fields.

Lemma service_fields_keeps (e : Exporter) (d : gmap string value) k :
  is_Some (d !! k) -> is_Some (service_fields e d !! k).
Proof. rewrite service_fields_lookup. by case_decide. Qed.

Lemma span_struct_fields_keeps (hs : Span.t) (d : gmap string value) k :
  is_Some (d !! k) -> is_Some (span_struct_fields hs d !! k).
Proof.
  intros Hk. unfold span_struct_fields.
  case_decide; destruct (time.IsZero _);
    rewrite ?lookup_insert_is_Some'; auto 10.
Qed.

Lemma service_fields_origin (e : Exporter) (d : gmap string value) k :
  is_Some (service_fields e d !! k) -> k = "service_name" \/ is_Some (d !! k).
Proof.
  rewrite service_fields_lookup.
  case_decide as Hk; [left; by destruct Hk|by right].
Qed.

(** Settles [k ∈ l] for a literal name [k] and a literal list [l]. *)
Ltac a_literal_name := apply (bool_decide_unpack _); vm_compute; exact I.

(** Settles [x ∈ l] for an entry [x] written out in the list [l]. *)
Ltac a_literal_member :=
  cbn zeta; rewrite !elem_of_cons; repeat (first [by left | right]).

Lemma span_struct_fields_origin (hs : Span.t) (d : gmap string value) k :
  is_Some (span_struct_fields hs d !! k) ->
  k ∈ span_struct_names \/ is_Some (d !! k).
Proof.
  destruct (decide (k ∈ span_struct_names)) as [|Hk]; [by left|].
  rewrite span_struct_fields_other by done. by right.
Qed.

Lemma span_struct_fields_mark (sd : trace.SpanData.t) (d : gmap string value) k v :
  (k, v) ∈ span_marks sd ->
  span_struct_fields (honeycombSpan sd) d !! k = Some v.
Proof.
  unfold span_marks. cbn zeta. rewrite !elem_of_cons, elem_of_nil.
  unfold span_struct_fields.
  intros [[= -> ->]|[[= -> ->]|[[= -> ->]|[[= -> ->]|[]]]]];
    case_decide; destruct (time.IsZero _); by simplify_map_eq.
Qed.

Lemma honeycombSpan_ids (sd : trace.SpanData.t) :
  let sc := trace.SpanData.SpanContext sd in
  Span.TraceID (honeycombSpan sd)
    = trace.TraceID_String (trace.SpanContext.TraceID sc) /\
  Span.ID (honeycombSpan sd)
    = trace.SpanID_String (trace.SpanContext.SpanID sc).
Proof. unfold honeycombSpan. case_bool_decide; by destruct (negb _ && negb _). Qed.

End field_facts.

Section MoreEvents.
Import libhoney libhoney_facts honeycomb honeycomb_views honeycomb_facts
  event_fields field_facts.

Variable uint_bits : Z.
Variable uint_unrepresentable : float64 -> Z.

Abbreviation ExportSpan := (honeycomb.ExportSpan uint_bits uint_unrepresentable).
Abbreviation emitted := (honeycomb_views.emitted uint_bits uint_unrepresentable).

(** X1: [ExportSpan] only appends: the events submitted before the call are
    all still there, in the same order, followed by the Span event and one
    event per annotation; and the call draws exactly that many fresh events
    from the builder. *)
Theorem ExportSpan_appends e sd c :
  sent (ExportSpan e sd c) = sent c ++ emitted e sd c /\
  length (emitted e sd c) = S (length (trace.SpanData.Annotations sd)) /\
  issued (ExportSpan e sd c)
    = (issued c + S (length (trace.SpanData.Annotations sd)))%nat.
Proof.
  rewrite emitted_eq, ExportSpan_spec. cbn [sent issued length].
  by rewrite length_imap.
Qed.

(** X2: Go does not fix the order in which [range] visits a map: whatever
    order the attributes are visited in, the loop leaves the same event. *)
Theorem range_AddField_any_order (m : gmap string value) order (ev : Event) :
  order ≡ₚ map_to_list m ->
  range_AddField_in order ev = range_AddField m ev.
Proof.
  intros Hp. rewrite range_AddField_spec, range_AddField_in_spec.
  - f_equal. f_equal. rewrite <- (list_to_map_to_list m).
    apply list_to_map_proper; [|done].
    rewrite Hp. apply NoDup_fst_map_to_list.
  - rewrite Hp. apply NoDup_fst_map_to_list.
Qed.

(** X3: The Span event has the span's [StartTime] as its own timestamp and
    carries [trace.trace_id], [name], [trace.span_id] and [duration_ms] as
    [honeycombSpan] computes them, each of them unless the span has an
    attribute of that name. *)
Theorem span_event_identity e sd c :
  exists ev, emitted e sd c !! 0%nat = Some ev /\
             Timestamp ev = trace.SpanData.StartTime sd /\
             forall k v, (k, v) ∈ span_marks sd ->
                         trace.SpanData.Attributes sd !! k = None ->
                         data ev !! k = Some v.
Proof.
  eexists. split; [apply emitted_span|]. split; [done|].
  intros k v Hkv Hattr.
  rewrite span_event_lookup, Hattr, (span_struct_fields_mark _ _ _ _ Hkv).
  unfold span_marks in Hkv. cbn zeta in Hkv.
  rewrite !elem_of_cons, elem_of_nil in Hkv.
  destruct Hkv as [[= -> ->]|[[= -> ->]|[[= -> ->]|[[= -> ->]|[]]]]];
    repeat case_decide; try done;
    by match goal with H : _ /\ _ |- _ => destruct H as [? ?] end.
Qed.

(** X4: The exporter never removes a field: whatever field the builder's fresh
    event has is still a field of the event submitted (the exporter may
    have replaced its value). *)
Theorem emitted_keeps_builder_fields e sd c i ev k :
  emitted e sd c !! i = Some ev ->
  is_Some (data (fresh (Builder e) (issued c + i)%nat) !! k) ->
  is_Some (data ev !! k).
Proof.
  intros Hev Hk. apply (service_fields_keeps e) in Hk. destruct i as [|i].
  - rewrite emitted_span in Hev. injection Hev as <-.
    rewrite Nat.add_0_r in Hk.
    rewrite span_event_lookup. repeat case_decide; [done|done|].
    destruct (trace.SpanData.Attributes sd !! k); [done|].
    by apply span_struct_fields_keeps.
  - rewrite emitted_annotation in Hev.
    destruct (trace.SpanData.Annotations sd !! i) as [a|]; [|done].
    injection Hev as <-. rewrite annotation_event_lookup.
    destruct (trace.Annotation.Attributes a !! k); [done|]. cbn zeta.
    by repeat case_decide.
Qed.

(** X5: The exporter writes under its own field names and under the names of
    the attributes, nowhere else: a field of a submitted event is one of
    the exporter's names for that kind of event, or an attribute of the
    span (of the annotation), or a field the builder's fresh event had. *)
Theorem emitted_field_origin e sd c i ev k :
  emitted e sd c !! i = Some ev ->
  is_Some (data ev !! k) ->
  k ∈ own_names i \/
  is_Some (attributes_of sd i !! k) \/
  is_Some (data (fresh (Builder e) (issued c + i)%nat) !! k).
Proof.
  intros Hev Hk. destruct i as [|i].
  - rewrite emitted_span in Hev. injection Hev as <-.
    rewrite Nat.add_0_r. cbn [own_names attributes_of].
    rewrite span_event_lookup in Hk. unfold span_event_names.
    case_decide as H1; [left; destruct H1 as [-> _]; a_literal_name|].
    case_decide as H2; [left; destruct H2 as [-> _]; a_literal_name|].
    destruct (trace.SpanData.Attributes sd !! k); [right; left; done|].
    apply span_struct_fields_origin in Hk as [Hk|Hk].
    { left. right. apply elem_of_app. by left. }
    apply service_fields_origin in Hk as [->|Hk]; [left; a_literal_name|].
    by right; right.
  - rewrite emitted_annotation in Hev. cbn [own_names attributes_of].
    destruct (trace.SpanData.Annotations sd !! i) as [a|]; [|done].
    injection Hev as <-. simpl.
    rewrite annotation_event_lookup in Hk. unfold annotation_event_names.
    destruct (trace.Annotation.Attributes a !! k) eqn:Hattr;
      [right; left; by eexists|].
    cbn zeta in Hk.
    repeat (case_decide; [left; subst k; a_literal_name|]).
    apply service_fields_origin in Hk as [->|Hk]; [left; a_literal_name|].
    by right; right.
Qed.

(** X6: An Annotation event can be joined to the Span event of its span: its
    [trace.parent_id] is the Span event's [trace.span_id] and the two have
    the same [trace.trace_id], when no attribute of the span or of the
    annotation is named like one of these fields. *)
Theorem annotation_joins_span e sd c j ev0 ev :
  emitted e sd c !! 0%nat = Some ev0 ->
  emitted e sd c !! S j = Some ev ->
  trace.SpanData.Attributes sd !! "trace.span_id" = None ->
  trace.SpanData.Attributes sd !! "trace.trace_id" = None ->
  attributes_of sd (S j) !! "trace.parent_id" = None ->
  attributes_of sd (S j) !! "trace.trace_id" = None ->
  is_Some (data ev0 !! "trace.span_id") /\
  data ev !! "trace.parent_id" = data ev0 !! "trace.span_id" /\
  data ev !! "trace.trace_id" = data ev0 !! "trace.trace_id".
Proof.
  intros Hev0 Hev Hs1 Hs2 Ha1 Ha2.
  rewrite emitted_span in Hev0. injection Hev0 as <-.
  rewrite emitted_annotation in Hev. cbn [attributes_of] in Ha1, Ha2.
  destruct (trace.SpanData.Annotations sd !! j) as [a|]; [|done].
  injection Hev as <-. simpl in Ha1, Ha2.
  destruct (honeycombSpan_ids sd) as [Ht Hi].
  rewrite !span_event_lookup, !annotation_event_lookup, Hs1, Hs2, Ha1, Ha2.
  rewrite (span_struct_fields_mark sd _ "trace.span_id"
             (VString (Span.ID (honeycombSpan sd))))
    by (unfold span_marks; a_literal_member).
  rewrite (span_struct_fields_mark sd _ "trace.trace_id"
             (VString (Span.TraceID (honeycombSpan sd))))
    by (unfold span_marks; a_literal_member).
  rewrite Ht, Hi. cbn zeta.
  repeat case_decide; try done;
    by match goal with H : _ /\ _ |- _ => destruct H as [? ?] end.
Qed.

(** X7: An Annotation event carries the annotation's time twice, as the
    event's own timestamp and as the field [timestamp]; unlike on a Span
    event, the field is written also when the time is the zero time. The
    field gives way only to an attribute of the annotation named
    [timestamp]. *)
Theorem annotation_timestamp_field e sd c j a :
  trace.SpanData.Annotations sd !! j = Some a ->
  trace.Annotation.Attributes a !! "timestamp" = None ->
  exists ev, emitted e sd c !! S j = Some ev /\
             Timestamp ev = trace.Annotation.Time a /\
             data ev !! "timestamp" = Some (VTime (trace.Annotation.Time a)).
Proof.
  intros Ha Hattr. eexists.
  split; [by rewrite emitted_annotation, Ha|]. split; [done|].
  by rewrite annotation_event_lookup, Hattr.
Qed.

(** X8: With a [SampleFraction] that is not 0, the sample rate depends on the
    fraction and the platform only: every event of every call, whatever the
    span, the builder, the service name and the client, gets the same one
    (so an Annotation event is weighted like its Span event). *)
Theorem SampleRate_uniform e e' sd sd' c c' i j ev ev' :
  Float64.eqb (SampleFraction e) Float64.zero = false ->
  SampleFraction e' = SampleFraction e ->
  emitted e sd c !! i = Some ev ->
  emitted e' sd' c' !! j = Some ev' ->
  SampleRate ev = SampleRate ev'.
Proof.
  intros Hnz Hsame Hev Hev'.
  assert (Hrate : forall e0 sd0 c0 i0 ev0,
            Float64.eqb (SampleFraction e0) Float64.zero = false ->
            emitted e0 sd0 c0 !! i0 = Some ev0 ->
            SampleRate ev0 =
            uint_of_float64 uint_bits uint_unrepresentable
              (Float64.div (Float64.of_int 1) (SampleFraction e0))).
  { intros e0 sd0 c0 [|i0] ev0 H0.
    - rewrite emitted_span. intros [= <-]. cbn.
      unfold sample_rate_of. by rewrite H0.
    - rewrite emitted_annotation.
      destruct (trace.SpanData.Annotations sd0 !! i0); [|done].
      intros [= <-]. cbn. unfold sample_rate_of. by rewrite H0. }
  rewrite (Hrate _ _ _ _ _ Hnz Hev).
  rewrite <- Hsame in Hnz. rewrite (Hrate _ _ _ _ _ Hnz Hev'). by rewrite Hsame.
Qed.

End MoreEvents.

(** * Rounding to binary64: brackets

    How far the rounded result is from the mantissa it was given, and what
    the rounding does to a number below one half. *)

Module round_bounds.
Import round_facts.

(** The result of rounding a mantissa of at least 53 digits sits between
    the mantissa cut to 53 digits and its successor. *)
Lemma binary_round_aux_bracket (sx : bool) (mx ex : Z) (lx : location) :
  0 < mx -> 53 <= Zdigits2 mx ->
  -1021 <= Zdigits2 mx + ex <= 1023 ->
  let n := Zdigits2 mx - 53 in
  let m1 := mx / 2 ^ n in
  exists m e,
    binary_round_aux sx mx ex lx = S754_finite sx m e /\
    2 ^ 52 <= m1 < 2 ^ 53 /\
    2 ^ 52 <= Zpos m < 2 ^ 53 /\
    ((e = ex + n /\ m1 <= Zpos m <= m1 + 1) \/
     (e = ex + n + 1 /\ m1 = 2 ^ 53 - 1 /\ Zpos m = 2 ^ 52)).
Proof.
  intros Hm Hd He n m1. unfold SpecFloat.binary_round_aux.
  destruct (shr_fexp_normal mx ex lx Hm Hd) as (mrs1 & -> & Hb1 & Hq1); [lia|].
  fold n in Hq1. fold m1 in Hq1.
  replace (Zdigits2 mx + ex - 53) with (ex + n) by (unfold n; lia).
  set (m2 := round_nearest_even (shr_m mrs1) (loc_of_shr_record mrs1)).
  assert (Hm2 : m2 = m1 \/ m2 = m1 + 1).
  { unfold m2, round_nearest_even. rewrite Hq1.
    destruct (loc_of_shr_record mrs1) as [|[]]; auto.
    destruct (Z.even _); auto. }
  rewrite Hq1 in Hb1.
  assert (Hcase : m2 < 2 ^ 53 \/ m2 = 2 ^ 53) by lia.
  destruct Hcase as [Hlt|Heq].
  - assert (Hd2 : Zdigits2 m2 = 53)
      by (apply Zdigits2_unique; change (53 - 1) with 52; lia).
    destruct (shr_fexp_normal m2 (ex + n) loc_Exact) as (mrs2 & -> & Hb2 & Hq2);
      [lia|lia|unfold n; lia|].
    rewrite Hd2 in *. rewrite Z.sub_diag, Z.pow_0_r, Z.div_1_r in Hq2.
    destruct (shr_m mrs2) as [|m|m] eqn:Em; [lia| |lia].
    replace (53 + (ex + n) - 53 <=? Float64.emax - Float64.prec) with true
      by (symmetry; apply Z.leb_le; unfold Float64.emax, Float64.prec, n; lia).
    exists m, (53 + (ex + n) - 53).
    split; [done|]. split; [lia|]. split; [lia|]. left. lia.
  - assert (Hd2 : Zdigits2 m2 = 54) by (rewrite Heq; reflexivity).
    destruct (shr_fexp_normal m2 (ex + n) loc_Exact) as (mrs2 & -> & Hb2 & Hq2);
      [lia|lia|unfold n; lia|].
    rewrite Hd2 in *. rewrite Heq in Hq2.
    change (2 ^ 53 / 2 ^ (54 - 53)) with (2 ^ 52) in Hq2.
    destruct (shr_m mrs2) as [|m|m] eqn:Em; [lia| |lia].
    replace (54 + (ex + n) - 53 <=? Float64.emax - Float64.prec) with true
      by (symmetry; apply Z.leb_le; unfold Float64.emax, Float64.prec, n; lia).
    exists m, (54 + (ex + n) - 53).
    split; [done|]. split; [lia|]. split; [lia|]. right. lia.
Qed.

(** The quotient of two normal numbers, with its bracket: [q] is the
    integer quotient of the mantissas that the division rounds. *)
Lemma div_bracket (s1 s2 : bool) (m1 m2 : positive) (e1 e2 : Z) :
  2 ^ 52 <= Zpos m1 < 2 ^ 53 -> 2 ^ 52 <= Zpos m2 < 2 ^ 53 ->
  -1021 <= e1 - e2 <= 1022 ->
  let q := Zpos m1 * 2 ^ 53 / Zpos m2 in
  let n := Zdigits2 q - 53 in
  let e' := e1 - e2 - 53 in
  2 ^ 52 <= q < 2 ^ 54 /\ 0 <= n <= 1 /\
  exists m e,
    Float64.div (S754_finite s1 m1 e1) (S754_finite s2 m2 e2)
      = S754_finite (xorb s1 s2) m e /\
    2 ^ 52 <= q / 2 ^ n < 2 ^ 53 /\
    2 ^ 52 <= Zpos m < 2 ^ 53 /\
    ((e = e' + n /\ q / 2 ^ n <= Zpos m <= q / 2 ^ n + 1) \/
     (e = e' + n + 1 /\ q / 2 ^ n = 2 ^ 53 - 1 /\ Zpos m = 2 ^ 52)).
Proof.
  intros H1 H2 He q n e'.
  assert (Hlo : 2 ^ 52 <= q).
  { unfold q. apply Z.div_le_lower_bound; [lia|].
    change (2 ^ 53) with (2 * 2 ^ 52) in *. nia. }
  assert (Hhi : q < 2 ^ 54).
  { unfold q. apply Z.div_lt_upper_bound; [lia|].
    change (2 ^ 54) with (2 * 2 ^ 53). nia. }
  assert (Hdq : Zdigits2 q = 53 \/ Zdigits2 q = 54).
  { destruct (Z.lt_ge_cases q (2 ^ 53)).
    - left. apply Zdigits2_unique; [change (53 - 1) with 52|]; lia.
    - right. apply Zdigits2_unique; [change (54 - 1) with 53|]; lia. }
  split; [lia|]. split; [unfold n; lia|].
  unfold Float64.div, SFdiv, SFdiv_core_binary.
  rewrite (Zdigits2_unique (Zpos m1) 53), (Zdigits2_unique (Zpos m2) 53)
    by (change (53 - 1) with 52; lia).
  replace (53 + e1 - (53 + e2)) with (e1 - e2) by lia.
  rewrite fexp_normal by lia.
  replace (Z.min (e1 - e2 - 53) (e1 - e2)) with (e1 - e2 - 53) by lia.
  replace (e1 - e2 - (e1 - e2 - 53)) with 53 by lia.
  rewrite Z.shiftl_mul_pow2 by lia.
  destruct (Z.div_eucl (Zpos m1 * 2 ^ 53) (Zpos m2)) as [q0 r] eqn:Ediv.
  assert (Hq : q0 = q) by (unfold q, Z.div; by rewrite Ediv).
  subst q0. fold e'.
  destruct (binary_round_aux_bracket (xorb s1 s2) q e'
              (new_location (Zpos m2) r)) as (m & e & -> & Hq' & Hm & Hbr);
    [lia|lia|unfold e'; lia|].
  fold n in Hbr, Hq'. by exists m, e.
Qed.

(** The two shifts of the rounding, whatever the range: the exponent is
    raised to the one the format asks for, and the mantissa is divided
    accordingly. *)
Lemma shr_fexp_any (m e : Z) (l : location) :
  0 <= m ->
  let e1 := Z.max e (fexp (Zdigits2 m + e)) in
  exists mrs, shr_fexp m e l = (mrs, e1) /\ shr_m mrs = m / 2 ^ (e1 - e).
Proof.
  intros Hm e1. unfold SpecFloat.shr_fexp.
  assert (Hrec : shr_m (shr_record_of_loc m l) = m)
    by (destruct l as [|[]]; done).
  destruct (fexp (Zdigits2 m + e) - e) as [|n|n] eqn:Hn; cbn [shr].
  - eexists. split; [f_equal; unfold e1; lia|].
    replace (e1 - e) with 0 by (unfold e1; lia).
    by rewrite Hrec, Z.pow_0_r, Z.div_1_r.
  - eexists. split; [f_equal; unfold e1; lia|].
    rewrite iter_shr_1_m by (rewrite Hrec; lia). rewrite Hrec.
    f_equal. f_equal. unfold e1. lia.
  - eexists. split; [f_equal; unfold e1; lia|].
    replace (e1 - e) with 0 by (unfold e1; lia).
    by rewrite Hrec, Z.pow_0_r, Z.div_1_r.
Qed.

Lemma Zdigits2_le (m k : Z) : 0 <= k -> 0 <= m < 2 ^ k -> Zdigits2 m <= k.
Proof.
  intros Hk Hm. destruct (Z.eq_dec m 0) as [->|Hnz]; [simpl; lia|].
  pose proof (Zdigits2_bounds m ltac:(lia)) as Hb.
  assert (Zdigits2 m - 1 < k); [|lia].
  apply (Z.pow_lt_mono_r_iff 2); lia.
Qed.

(** A number of at most one half rounds to a number below one: its integer
    part is zero, also where the result is subnormal or underflows. *)
Lemma binary_round_aux_small (sx : bool) (mx ex : Z) (lx : location) :
  0 <= mx -> ex <= -2 -> 2 * mx <= 2 ^ (- ex) ->
  Float64.trunc (binary_round_aux sx mx ex lx) = Some 0.
Proof.
  intros Hm Hex Hv. unfold SpecFloat.binary_round_aux.
  assert (Hfexp : forall x, x <= 1 -> fexp x <= -2).
  { intros x Hx. unfold SpecFloat.fexp, emin, Float64.prec, Float64.emax. lia. }
  assert (Hpow : forall a b, 0 <= a -> 0 <= b -> 2 ^ (a + b) = 2 ^ a * 2 ^ b)
    by (intros; apply Z.pow_add_r; lia).
  assert (Hd : Zdigits2 mx + ex <= 0).
  { assert (Zdigits2 mx <= - ex); [|lia].
    apply Zdigits2_le; [lia|]. split; [done|].
    assert (0 < 2 ^ (- ex)) by (apply Z.pow_pos_nonneg; lia). lia. }
  destruct (shr_fexp_any mx ex lx Hm) as (mrs1 & -> & Hq1).
  set (e1 := Z.max ex (fexp (Zdigits2 mx + ex))) in *.
  assert (He1 : ex <= e1 <= -2).
  { unfold e1. pose proof (Hfexp (Zdigits2 mx + ex)). lia. }
  set (m1 := shr_m mrs1) in *.
  assert (Hm1 : 0 <= m1 /\ 2 * m1 <= 2 ^ (- e1)).
  { rewrite Hq1. split; [apply Z.div_pos; lia|].
    assert (Hsplit : 2 ^ (- ex) = 2 ^ (- e1) * 2 ^ (e1 - ex)).
    { rewrite <- Hpow by lia. f_equal. lia. }
    assert (0 < 2 ^ (e1 - ex)) by (apply Z.pow_pos_nonneg; lia).
    assert (0 < 2 ^ (- e1)) by (apply Z.pow_pos_nonneg; lia).
    pose proof (Z.mul_div_le mx (2 ^ (e1 - ex)) ltac:(lia)).
    nia. }
  set (m2 := round_nearest_even m1 (loc_of_shr_record mrs1)).
  assert (Hm2 : m2 = m1 \/ m2 = m1 + 1).
  { unfold m2, round_nearest_even.
    destruct (loc_of_shr_record mrs1) as [|[]]; auto.
    destruct (Z.even _); auto. }
  assert (H4 : 4 <= 2 ^ (- e1)).
  { change 4 with (2 ^ 2). apply Z.pow_le_mono_r; lia. }
  assert (Hm2' : 0 <= m2 < 2 ^ (- e1)) by lia.
  destruct (shr_fexp_any m2 e1 loc_Exact) as (mrs2 & -> & Hq2); [lia|].
  set (e2 := Z.max e1 (fexp (Zdigits2 m2 + e1))) in *.
  assert (He2 : e1 <= e2 <= -2).
  { unfold e2.
    assert (Zdigits2 m2 <= - e1) by (apply Zdigits2_le; lia).
    pose proof (Hfexp (Zdigits2 m2 + e1)). lia. }
  assert (Hm3 : 0 <= shr_m mrs2 < 2 ^ (- e2)).
  { rewrite Hq2.
    assert (Hsplit : 2 ^ (- e1) = 2 ^ (e2 - e1) * 2 ^ (- e2)).
    { rewrite <- Hpow by lia. f_equal. lia. }
    assert (0 < 2 ^ (e2 - e1)) by (apply Z.pow_pos_nonneg; lia).
    split; [apply Z.div_pos; lia|].
    apply Z.div_lt_upper_bound; lia. }
  destruct (shr_m mrs2) as [|m|m]; [done| |lia].
  replace (e2 <=? Float64.emax - Float64.prec) with true
    by (symmetry; apply Z.leb_le; unfold Float64.emax, Float64.prec; lia).
  cbn [Float64.trunc]. destruct e2 as [|p|p]; [lia|lia|].
  rewrite Z.shiftr_div_pow2 by lia.
  rewrite Z.div_small by (change (- Zneg p) with (Zpos p) in Hm3; lia).
  by destruct sx.
Qed.

(** What a valid finite value looks like. *)
Lemma valid_finite (s : bool) (m : positive) (e : Z) :
  Float64.valid (S754_finite s m e) = true ->
  -1074 <= e <= 971 /\ Zpos m < 2 ^ 53 /\ (-1074 < e -> 2 ^ 52 <= Zpos m).
Proof.
  unfold Float64.valid, valid_binary, bounded, canonical_mantissa.
  intros [Hc He]%andb_true_iff.
  apply Z.leb_le in He. apply Z.eqb_eq in Hc.
  unfold SpecFloat.fexp, emin, Float64.prec, Float64.emax in *.
  pose proof (digits2_pos_bounds m) as Hb.
  set (d := Zpos (digits2_pos m)) in *.
  assert (0 < d) by (unfold d; lia).
  split; [lia|].
  destruct (Z.eq_dec d 53) as [Hd|Hd].
  - rewrite Hd in Hb. change (53 - 1) with 52 in Hb. lia.
  - assert (Hd' : d <= 52 /\ e = -1074) by lia.
    split; [|lia].
    assert (2 ^ d <= 2 ^ 52) by (apply Z.pow_le_mono_r; lia).
    assert (2 ^ 52 < 2 ^ 53) by done. lia.
Qed.

End round_bounds.
(** * Sampling: the reciprocal of the fraction *)

Module reciprocal_facts.
Import round_facts round_bounds.

Lemma of_int_1 : Float64.of_int 1 = S754_finite false 4503599627370496 (-52).
Proof. vm_compute. reflexivity. Qed.

(** The reciprocal of a number above one in magnitude has the integer
    part zero, however large the number is. *)
Lemma reciprocal_above_one (s : bool) (m : positive) (e : Z) :
  Float64.valid (S754_finite s m e) = true ->
  -52 < e \/ (e = -52 /\ 2 ^ 52 < Zpos m) ->
  Float64.trunc (Float64.div (Float64.of_int 1) (S754_finite s m e)) = Some 0.
Proof.
  intros Hv Hbig. rewrite of_int_1.
  destruct (valid_finite s m e Hv) as (He & Hm53 & Hm52).
  specialize (Hm52 ltac:(lia)).
  destruct Hbig as [Hbig|[-> Hbig]].
  - unfold Float64.div, SFdiv, SFdiv_core_binary.
    rewrite (Zdigits2_unique (Zpos m) 53) by (change (53 - 1) with 52; lia).
    change (Zdigits2 (Zpos 4503599627370496)) with 53.
    set (e' := Z.min (SpecFloat.fexp Float64.prec Float64.emax
                        (53 + -52 - (53 + e))) (-52 - e)).
    assert (He' : e' <= -54 /\ e' <= -52 - e).
    { unfold e', SpecFloat.fexp, emin, Float64.prec, Float64.emax. lia. }
    set (sh := -52 - e - e').
    set (m' := match sh with
               | 0 => Zpos 4503599627370496
               | Zpos _ => Z.shiftl (Zpos 4503599627370496) sh
               | Zneg _ => 0
               end).
    assert (Hm' : m' = 2 ^ 52 * 2 ^ sh).
    { unfold m'. assert (0 <= sh) by (unfold sh; lia).
      destruct sh as [|p|p]; [done| |lia].
      by rewrite Z.shiftl_mul_pow2 by lia. }
    destruct (Z.div_eucl m' (Zpos m)) as [q r] eqn:Ediv.
    assert (Hq : q = m' / Zpos m) by (unfold Z.div; by rewrite Ediv).
    assert (Hsh : 0 <= sh) by (unfold sh; lia).
    assert (0 < 2 ^ sh) by (apply Z.pow_pos_nonneg; lia).
    apply binary_round_aux_small; [|lia|].
    + rewrite Hq. apply Z.div_pos; lia.
    + assert (Hq' : q <= 2 ^ sh).
      { rewrite Hq, Hm'. apply Z.div_le_upper_bound; [lia|]. nia. }
      assert (2 ^ (sh + 1) <= 2 ^ (- e'))
        by (apply Z.pow_le_mono_r; unfold sh; lia).
      rewrite Z.pow_add_r in * by lia. lia.
  - destruct (div_bracket false s 4503599627370496 m (-52) (-52))
      as ((Hq1 & Hq2) & Hn & m0 & e0 & -> & _ & Hm0 & Hbr); [done|lia|lia|].
    cbn zeta in *.
    set (q := Zpos 4503599627370496 * 2 ^ 53 / Zpos m) in *.
    assert (Hq : q < 2 ^ 53 - 1).
    { unfold q. apply Z.div_lt_upper_bound; [lia|].
      change (Zpos 4503599627370496 * 2 ^ 53) with (2 ^ 105).
      assert (2 ^ 52 + 1 <= Zpos m) by lia.
      change (2 ^ 105) with (2 ^ 52 * 2 ^ 53) in *. nia. }
    assert (Hd : Zdigits2 q = 53)
      by (apply Zdigits2_unique; change (53 - 1) with 52; lia).
    rewrite Hd in Hbr. change (2 ^ (53 - 53)) with 1 in Hbr.
    rewrite Z.div_1_r in Hbr.
    destruct Hbr as [[-> Hbr]|[_ [Hbr _]]]; [|lia].
    change (-52 - -52 - 53 + (53 - 53)) with (-53). cbn [Float64.trunc].
    rewrite Z.shiftr_div_pow2 by lia. rewrite Z.div_small by lia.
    by destruct s.
Qed.

(** The integer part of a positive value, as a shift. *)
Lemma trunc_shiftl (m : positive) (e : Z) :
  Float64.trunc (S754_finite false m e) = Some (Z.shiftl (Zpos m) e).
Proof. by destruct e. Qed.

Lemma shiftl_pow2 (a e : Z) :
  0 <= a -> 0 <= a + e -> Z.shiftl (2 ^ a) e = 2 ^ (a + e).
Proof.
  intros Ha Hae. destruct (Z.le_gt_cases 0 e).
  - rewrite Z.shiftl_mul_pow2 by done. symmetry. apply Z.pow_add_r; lia.
  - rewrite Z.shiftl_div_pow2 by lia.
    replace (a + e) with (a - - e) by lia.
    symmetry. apply Z.pow_sub_r; lia.
Qed.

Lemma shiftl_normal (m e : Z) :
  2 ^ 52 <= m <= 2 ^ 53 -> -52 <= e ->
  2 ^ (52 + e) <= Z.shiftl m e <= 2 ^ (53 + e).
Proof.
  intros Hm He. destruct (Z.le_gt_cases 0 e).
  - rewrite Z.shiftl_mul_pow2 by done.
    rewrite !Z.pow_add_r by lia.
    assert (0 < 2 ^ e) by (apply Z.pow_pos_nonneg; lia). nia.
  - rewrite Z.shiftl_div_pow2 by lia.
    assert (0 < 2 ^ (- e)) by (apply Z.pow_pos_nonneg; lia).
    assert (E52 : 2 ^ 52 = 2 ^ (52 + e) * 2 ^ (- e)).
    { rewrite <- Z.pow_add_r by lia. f_equal. lia. }
    assert (E53 : 2 ^ 53 = 2 ^ (53 + e) * 2 ^ (- e)).
    { rewrite <- Z.pow_add_r by lia. f_equal. lia. }
    split.
    + apply Z.div_le_lower_bound; lia.
    + apply Z.div_le_upper_bound; lia.
Qed.

(** The reciprocal of a power of two is that power of two. *)
Lemma reciprocal_pow2 (s : bool) (e : Z) :
  -1074 <= e <= 969 ->
  Float64.div (S754_finite false 4503599627370496 (-52))
              (S754_finite s 4503599627370496 e)
  = S754_finite s 4503599627370496 (-104 - e).
Proof.
  intros He. unfold Float64.div, SFdiv, SFdiv_core_binary.
  change (Zdigits2 (Zpos 4503599627370496)) with 53.
  replace (53 + -52 - (53 + e)) with (-52 - e) by lia.
  rewrite fexp_normal by lia.
  replace (Z.min (-52 - e - 53) (-52 - e)) with (-52 - e - 53) by lia.
  replace (-52 - e - (-52 - e - 53)) with 53 by lia.
  change (Z.div_eucl (Z.shiftl (Zpos 4503599627370496) 53)
                     (Zpos 4503599627370496)) with (2 ^ 53, 0).
  cbv beta iota.
  change (new_location (Zpos 4503599627370496) 0) with loc_Exact.
  destruct (binary_round_aux_exact (xorb false s) (2 ^ 53) (-52 - e - 53) 1)
    as (m & -> & Hm); [done|done|done|by exists (2 ^ 52)| |].
  - change (Zdigits2 (2 ^ 53)) with 54. lia.
  - cbn [xorb]. f_equal; [|lia].
    change (2 ^ 53) with (2 ^ 52 * 2 ^ 1) in Hm. lia.
Qed.

(** The reciprocal of a number between [2 ^ (- K)] and 1 has its integer
    part between 1 and [2 ^ K]. *)
Lemma reciprocal_in_unit (K : Z) (m : positive) (e : Z) :
  0 <= K <= 1022 ->
  2 ^ 52 <= Zpos m < 2 ^ 53 ->
  - K - 52 <= e ->
  e < -52 \/ (e = -52 /\ Zpos m = 2 ^ 52) ->
  exists n,
    Float64.trunc (Float64.div (Float64.of_int 1) (S754_finite false m e))
      = Some n /\
    1 <= n <= 2 ^ K.
Proof.
  intros HK Hm He Hle. rewrite of_int_1.
  assert (Hone : forall x, 0 <= x -> 1 <= 2 ^ x).
  { intros x Hx. assert (0 < 2 ^ x) by (apply Z.pow_pos_nonneg; lia). lia. }
  destruct (Z.eq_dec (Zpos m) (2 ^ 52)) as [Hm52|Hm52].
  - (* the fraction is a power of two: the quotient is exact *)
    assert (m = 4503599627370496%positive) as -> by lia.
    rewrite reciprocal_pow2, trunc_shiftl by lia.
    eexists. split; [done|].
    change (Zpos 4503599627370496) with (2 ^ 52).
    rewrite shiftl_pow2 by lia.
    replace (52 + (-104 - e)) with (- 52 - e) by lia.
    split; [apply Hone; lia|apply Z.pow_le_mono_r; lia].
  - assert (He' : e < -52) by lia.
    destruct (div_bracket false false 4503599627370496 m (-52) e)
      as ((Hq1 & Hq2) & Hn & m0 & e0 & -> & _ & Hm0 & Hbr); [done|lia|lia|].
    cbn zeta in *. cbn [xorb].
    set (q := Zpos 4503599627370496 * 2 ^ 53 / Zpos m) in *.
    assert (Hq : q < 2 ^ 53 - 1).
    { unfold q. apply Z.div_lt_upper_bound; [lia|].
      change (Zpos 4503599627370496 * 2 ^ 53) with (2 ^ 105).
      assert (2 ^ 52 + 1 <= Zpos m) by lia.
      change (2 ^ 105) with (2 ^ 52 * 2 ^ 53) in *. nia. }
    assert (Hd : Zdigits2 q = 53)
      by (apply Zdigits2_unique; change (53 - 1) with 52; lia).
    rewrite Hd in Hbr. change (2 ^ (53 - 53)) with 1 in Hbr.
    rewrite Z.div_1_r in Hbr.
    destruct Hbr as [[-> Hbr]|[_ [Hbr _]]]; [|lia].
    rewrite trunc_shiftl. eexists. split; [done|].
    destruct (shiftl_normal (Zpos m0) (-52 - e - 53 + (53 - 53)))
      as [Hlo Hhi]; [lia|lia|].
    assert (1 <= 2 ^ (52 + (-52 - e - 53 + (53 - 53)))) by (apply Hone; lia).
    assert (2 ^ (53 + (-52 - e - 53 + (53 - 53))) <= 2 ^ K)
      by (apply Z.pow_le_mono_r; lia).
    lia.
Qed.

(** The integer part of the float64 reciprocal of a number between
    [2 ^ (-52)] and 1, against the exact reciprocal rounded down
    ([2 ^ (- e) / m] for the number [m * 2 ^ e]): the same, or one more. *)
Lemma reciprocal_floor (K : Z) (m : positive) (e : Z) :
  0 <= K <= 52 ->
  2 ^ 52 <= Zpos m < 2 ^ 53 ->
  - K - 52 <= e ->
  e < -52 \/ (e = -52 /\ Zpos m = 2 ^ 52) ->
  exists n,
    Float64.trunc (Float64.div (Float64.of_int 1) (S754_finite false m e))
      = Some n /\
    2 ^ (- e) / Zpos m <= n <= 2 ^ (- e) / Zpos m + 1.
Proof.
  intros HK Hm He Hle. rewrite of_int_1.
  destruct (Z.eq_dec (Zpos m) (2 ^ 52)) as [Hm52|Hm52].
  - assert (m = 4503599627370496%positive) as -> by lia.
    rewrite reciprocal_pow2, trunc_shiftl by lia.
    eexists. split; [done|].
    change (Zpos 4503599627370496) with (2 ^ 52).
    rewrite shiftl_pow2 by lia.
    replace (52 + (-104 - e)) with (- e - 52) by lia.
    rewrite Z.pow_sub_r by lia. lia.
  - assert (He' : e < -52) by lia.
    destruct (div_bracket false false 4503599627370496 m (-52) e)
      as ((Hq1 & Hq2) & Hn & m0 & e0 & -> & _ & Hm0 & Hbr); [done|lia|lia|].
    cbn zeta in *. cbn [xorb].
    set (q := Zpos 4503599627370496 * 2 ^ 53 / Zpos m) in *.
    assert (Hq : q < 2 ^ 53 - 1).
    { unfold q. apply Z.div_lt_upper_bound; [lia|].
      change (Zpos 4503599627370496 * 2 ^ 53) with (2 ^ 105).
      assert (2 ^ 52 + 1 <= Zpos m) by lia.
      change (2 ^ 105) with (2 ^ 52 * 2 ^ 53) in *. nia. }
    assert (Hd : Zdigits2 q = 53)
      by (apply Zdigits2_unique; change (53 - 1) with 52; lia).
    rewrite Hd in Hbr. change (2 ^ (53 - 53)) with 1 in Hbr.
    rewrite Z.div_1_r in Hbr.
    destruct Hbr as [[-> Hbr]|[_ [Hbr _]]]; [|lia].
    rewrite trunc_shiftl. eexists. split; [done|].
    set (s := 105 + e).
    replace (-52 - e - 53 + (53 - 53)) with (- s) by (unfold s; lia).
    rewrite Z.shiftl_div_pow2 by (unfold s; lia). rewrite Z.opp_involutive.
    assert (Hs : 0 < 2 ^ s) by (apply Z.pow_pos_nonneg; unfold s; lia).
    assert (HF : 2 ^ (- e) / Zpos m = q / 2 ^ s).
    { unfold q. change (Zpos 4503599627370496 * 2 ^ 53) with (2 ^ 105).
      replace 105 with (- e + s) by (unfold s; lia).
      rewrite Z.pow_add_r by (unfold s; lia).
      rewrite Z.div_div by lia.
      by rewrite Z.div_mul_cancel_r by lia. }
    rewrite HF. split.
    + apply Z.div_le_mono; lia.
    + transitivity ((q + 1 * 2 ^ s) / 2 ^ s).
      * apply Z.div_le_mono; lia.
      * rewrite Z.div_add by lia. lia.
Qed.

(** Go's [<] and [<=] on two positive finite values. *)
Lemma ltb_finite (m1 m2 : positive) (e1 e2 : Z) :
  Float64.ltb (S754_finite false m1 e1) (S754_finite false m2 e2) = true <->
  e1 < e2 \/ (e1 = e2 /\ Zpos m1 < Zpos m2).
Proof.
  unfold Float64.ltb, SFltb, SFcompare.
  change (Pos.compare_cont Eq m1 m2) with (Pos.compare m1 m2).
  destruct (Z.compare_spec e1 e2), (Pos.compare_spec m1 m2);
    split; try done; lia.
Qed.

Lemma leb_finite (m1 m2 : positive) (e1 e2 : Z) :
  SFleb (S754_finite false m1 e1) (S754_finite false m2 e2) = true <->
  e1 < e2 \/ (e1 = e2 /\ Zpos m1 <= Zpos m2).
Proof.
  unfold SFleb, SFcompare.
  change (Pos.compare_cont Eq m1 m2) with (Pos.compare m1 m2).
  destruct (Z.compare_spec e1 e2), (Pos.compare_spec m1 m2);
    split; try done; lia.
Qed.

(** A fraction between [2 ^ (- K)] and 1 is a normal number. *)
Lemma fraction_in_unit (f : float64) (K : Z) :
  0 <= K <= 1022 ->
  Float64.valid f = true ->
  SFleb (float64_pow2 (- K)) f = true ->
  SFleb f (Float64.of_int 1) = true ->
  exists m e, f = S754_finite false m e /\
              2 ^ 52 <= Zpos m < 2 ^ 53 /\ - K - 52 <= e /\
              (e < -52 \/ (e = -52 /\ Zpos m = 2 ^ 52)).
Proof.
  intros HK Hv Hlo Hhi. rewrite of_int_1 in Hhi. unfold float64_pow2 in Hlo.
  destruct f as [s|s| |s m e]; try done.
  { by destruct s. }
  destruct s; [done|].
  apply leb_finite in Hlo. apply leb_finite in Hhi.
  destruct (valid_finite _ _ _ Hv) as (He & Hm53 & Hm52).
  exists m, e. split; [done|]. split; [|lia].
  split; [|done]. destruct Hlo as [Hlo|[_ Hlo]]; [apply Hm52|done]. lia.
Qed.

End reciprocal_facts.

Section MoreSampling.
Import libhoney honeycomb honeycomb_views honeycomb_facts round_bounds
  reciprocal_facts.

Variable uint_bits : Z.
Variable uint_unrepresentable : float64 -> Z.

Abbreviation emitted := (honeycomb_views.emitted uint_bits uint_unrepresentable).

(** X10: A [SampleFraction] between [2 ^ (- K)] and 1, both included, with
    [K] below the width of [uint]: every event gets a sample rate between
    1 and [2 ^ K]; the conversion to [uint] is never out of range and the
    platform's choice for such conversions plays no role. *)
Theorem SampleFraction_in_unit_interval e sd c i ev K :
  0 <= K < uint_bits -> K <= 1022 ->
  Float64.valid (SampleFraction e) = true ->
  SFleb (float64_pow2 (- K)) (SampleFraction e) = true ->
  SFleb (SampleFraction e) (Float64.of_int 1) = true ->
  emitted e sd c !! i = Some ev ->
  1 <= SampleRate ev <= 2 ^ K.
Proof.
  intros HK HK' Hv Hlo Hhi Hev.
  rewrite (emitted_SampleRate _ _ _ _ _ _ _ Hev).
  unfold sample_rate_of, uint_of_float64.
  rewrite of_int_1 in Hhi. unfold float64_pow2 in Hlo.
  destruct (SampleFraction e) as [s|s| |s m ex]; try done.
  { by destruct s. }
  destruct s; [done|].
  apply leb_finite in Hlo. apply leb_finite in Hhi.
  destruct (valid_finite _ _ _ Hv) as (He & Hm53 & Hm52).
  assert (Hm : 2 ^ 52 <= Zpos m < 2 ^ 53).
  { split; [|done]. destruct Hlo as [Hlo|[_ Hlo]]; [apply Hm52|done]. lia. }
  destruct (reciprocal_in_unit K m ex) as (n & -> & Hn); [lia|done|lia|lia|].
  cbn [Float64.eqb SFeqb SFcompare Float64.zero].
  assert (2 ^ K < 2 ^ uint_bits) by (apply Z.pow_lt_mono_r; lia).
  rewrite (proj2 (Z.leb_le 0 n)), (proj2 (Z.ltb_lt n _)) by lia.
  cbn. lia.
Qed.

(** X15: A [SampleFraction] [f] between [2 ^ (- K)] and 1, with [K] at most 52
    and below the width of [uint]: the sample rate of every event is the
    exact reciprocal [1 / f] rounded down, or one more than that (the
    float64 quotient may round up to the next integer before its fraction
    is discarded). *)
Theorem SampleRate_near_reciprocal e sd c i ev K q :
  0 <= K < uint_bits -> K <= 52 ->
  Float64.valid (SampleFraction e) = true ->
  SFleb (float64_pow2 (- K)) (SampleFraction e) = true ->
  SFleb (SampleFraction e) (Float64.of_int 1) = true ->
  Float64.to_Q (SampleFraction e) = Some q ->
  emitted e sd c !! i = Some ev ->
  Qfloor (/ q) <= SampleRate ev <= Qfloor (/ q) + 1.
Proof.
  intros HK HK' Hv Hlo Hhi Hq Hev.
  rewrite (emitted_SampleRate _ _ _ _ _ _ _ Hev).
  unfold sample_rate_of, uint_of_float64.
  rewrite of_int_1 in Hhi. unfold float64_pow2 in Hlo.
  destruct (SampleFraction e) as [s|s| |s m ex]; try done.
  destruct s; [done|].
  apply leb_finite in Hlo. apply leb_finite in Hhi.
  destruct (valid_finite _ _ _ Hv) as (He & Hm53 & Hm52).
  assert (Hm : 2 ^ 52 <= Zpos m < 2 ^ 53).
  { split; [|done]. destruct Hlo as [Hlo|[_ Hlo]]; [apply Hm52|done]. lia. }
  destruct (reciprocal_in_unit K m ex) as (n & Hn & Hrange); [lia|done|lia|lia|].
  destruct (reciprocal_floor K m ex) as (n' & Hn' & Hfloor); [lia|done|lia|lia|].
  rewrite Hn' in Hn. injection Hn as ->. rewrite Hn'.
  cbn [Float64.eqb SFeqb SFcompare Float64.zero].
  assert (2 ^ K < 2 ^ uint_bits) by (apply Z.pow_lt_mono_r; lia).
  rewrite (proj2 (Z.leb_le 0 n)), (proj2 (Z.ltb_lt n _)) by lia.
  cbn [andb negb].
  assert (HF : Qfloor (/ q) = 2 ^ (- ex) / Zpos m); [|by rewrite HF].
  destruct ex as [|p|p]; [lia|lia|].
  injection Hq as <-. cbn [cond_Zopp].
  unfold Qinv, Qfloor. cbn [Qnum Qden].
  by rewrite Pos2Z.inj_pow.
Qed.

(** X11: A [SampleFraction] that is a power of two, [2 ^ (- K)] with [K] below
    the width of [uint] (one half, one quarter, ...): every event gets
    exactly the sample rate [2 ^ K]. *)
Theorem SampleFraction_power_of_two e sd c i ev K :
  0 <= K < uint_bits -> K <= 1022 ->
  SampleFraction e = float64_pow2 (- K) ->
  emitted e sd c !! i = Some ev ->
  SampleRate ev = 2 ^ K.
Proof.
  intros HK HK' Hf Hev.
  rewrite (emitted_SampleRate _ _ _ _ _ _ _ Hev).
  unfold sample_rate_of, uint_of_float64. rewrite Hf. unfold float64_pow2.
  rewrite of_int_1, reciprocal_pow2, trunc_shiftl by lia.
  change (Zpos 4503599627370496) with (2 ^ 52).
  rewrite shiftl_pow2 by lia.
  replace (52 + (-104 - (- K - 52))) with K by lia.
  cbn [Float64.eqb SFeqb SFcompare Float64.zero].
  assert (0 < 2 ^ K) by (apply Z.pow_pos_nonneg; lia).
  assert (2 ^ K < 2 ^ uint_bits) by (apply Z.pow_lt_mono_r; lia).
  by rewrite (proj2 (Z.leb_le 0 _)), (proj2 (Z.ltb_lt _ _)) by lia.
Qed.

(** X16: For a [SampleFraction] between [2 ^ (- K)] and 1, the width of
    [uint] does not matter as long as it is above [K]: on a 32-bit and on a
    64-bit platform [ExportSpan] submits the same events (for fractions
    from [2 ^ (-31)] on). *)
Theorem ExportSpan_platform_independent e sd c K bits' unrep' :
  0 <= K < uint_bits -> K < bits' -> K <= 1022 ->
  Float64.valid (SampleFraction e) = true ->
  SFleb (float64_pow2 (- K)) (SampleFraction e) = true ->
  SFleb (SampleFraction e) (Float64.of_int 1) = true ->
  honeycomb.ExportSpan bits' unrep' e sd c =
  honeycomb.ExportSpan uint_bits uint_unrepresentable e sd c.
Proof.
  intros HK HK' HK'' Hv Hlo Hhi.
  destruct (fraction_in_unit _ K ltac:(lia) Hv Hlo Hhi)
    as (m & ex & Hf & Hm & He & Hle).
  destruct (reciprocal_in_unit K m ex) as (n & Hn & Hrange); [lia|done|lia|lia|].
  assert (Hrate : forall bits unrep r0, K < bits ->
            sample_rate_of bits unrep e r0 = n).
  { intros bits unrep r0 Hbits.
    unfold sample_rate_of, uint_of_float64. rewrite Hf, Hn.
    cbn [Float64.eqb SFeqb SFcompare Float64.zero].
    assert (2 ^ K < 2 ^ bits) by (apply Z.pow_lt_mono_r; lia).
    by rewrite (proj2 (Z.leb_le 0 n)), (proj2 (Z.ltb_lt n _)) by lia. }
  rewrite !ExportSpan_spec. f_equal. f_equal. f_equal.
  - unfold span_event. by rewrite !Hrate by lia.
  - apply imap_ext. intros j a _. simpl.
    unfold annotation_event. by rewrite !Hrate by lia.
Qed.

(** X12: A [SampleFraction] above 1 in magnitude, however large and infinite
    included: every event gets the sample rate 0. *)
Theorem SampleFraction_above_one e sd c i ev :
  0 <= uint_bits ->
  Float64.valid (SampleFraction e) = true ->
  Float64.ltb (Float64.of_int 1) (SFabs (SampleFraction e)) = true ->
  emitted e sd c !! i = Some ev ->
  SampleRate ev = 0.
Proof.
  intros Hbits Hv Hlt Hev.
  rewrite (emitted_SampleRate _ _ _ _ _ _ _ Hev).
  unfold sample_rate_of, uint_of_float64.
  assert (H0 : (0 <=? 0) && (0 <? 2 ^ uint_bits) = true).
  { assert (0 < 2 ^ uint_bits) by (apply Z.pow_pos_nonneg; lia).
    by rewrite (proj2 (Z.ltb_lt 0 _)). }
  destruct (SampleFraction e) as [s|s| |s m ex] eqn:Hf.
  - by rewrite of_int_1 in Hlt.
  - rewrite of_int_1.
    cbn [Float64.div SFdiv Float64.trunc Float64.eqb SFeqb SFcompare Float64.zero].
    rewrite H0. by destruct s.
  - by rewrite of_int_1 in Hlt.
  - rewrite of_int_1 in Hlt. cbn [SFabs] in Hlt. apply ltb_finite in Hlt.
    rewrite reciprocal_above_one by (done || lia).
    rewrite H0. by destruct s.
Qed.

End MoreSampling.
(** * Durations: finiteness, sign and accuracy *)

Module duration_facts.
Import round_facts round_bounds.

Lemma of_int_Millisecond :
  Float64.of_int time.Millisecond = S754_finite false 8589934592000000 (-33).
Proof. vm_compute. reflexivity. Qed.

(** The quotient of a duration below [2 ^ 53] nanoseconds by a
    millisecond: a normal number with a negative exponent, within one unit
    in the last place of the exact quotient. *)
Lemma duration_quotient_bracket (d : Z) :
  d <> 0 -> Z.abs d < 2 ^ 53 ->
  exists m p,
    Float64.div (Float64.of_int d) (Float64.of_int time.Millisecond)
      = S754_finite (d <? 0) m (Zneg p) /\
    Z.abs (Zpos m * 1000000 - Z.abs d * 2 ^ Zpos p) * 2 ^ 52
      <= Z.abs d * 2 ^ Zpos p.
Proof.
  intros Hd Hr.
  destruct (of_int_exact d Hd Hr) as (m1 & e1 & -> & Hm1 & He1 & Hm1d).
  rewrite of_int_Millisecond.
  destruct (div_bracket (d <? 0) false m1 8589934592000000 e1 (-33))
    as ((Hq1 & Hq2) & Hn & m & e & -> & Hq' & Hm & Hbr); [done|done|lia|].
  cbn zeta in *. rewrite xorb_false_r.
  set (q := Zpos m1 * 2 ^ 53 / Zpos 8589934592000000) in *.
  set (n := Zdigits2 q - 53) in *. clearbody n.
  set (D := Z.abs d) in *.
  assert (HA : q * 8589934592000000 <= Zpos m1 * 2 ^ 53
               < (q + 1) * 8589934592000000).
  { pose proof (Z.mul_div_le (Zpos m1 * 2 ^ 53) 8589934592000000 ltac:(lia))
      as Hlo.
    pose proof (Z.mul_succ_div_gt (Zpos m1 * 2 ^ 53) 8589934592000000
                  ltac:(lia)) as Hhi.
    fold q in Hlo, Hhi. lia. }
  assert (Hpow : forall a b, 0 <= a -> 0 <= b -> 2 ^ (a + b) = 2 ^ a * 2 ^ b)
    by (intros; apply Z.pow_add_r; lia).
  assert (Hscale : forall c, 0 <= c -> 0 <= 53 - e1 - c ->
            Zpos m1 * 2 ^ 53 = D * 2 ^ (53 - e1 - c) * 2 ^ c).
  { intros c Hc Hc'. rewrite Hm1d, <- !Z.mul_assoc, <- !Hpow by lia.
    f_equal. f_equal. lia. }
  assert (Hn' : n = 0 \/ n = 1) by lia.
  assert (He : e < 0) by lia.
  destruct e as [|p|p]; [lia|lia|]. exists m, p. split; [done|].
  assert (Ep : Zpos p = - Zneg p) by done.
  destruct Hbr as [[Hbr Hmq]|[Hbr [Hq2' Hm0]]].
  - assert (Ee : Zpos p = 53 - e1 - (33 + n)) by lia.
    rewrite Ee. pose proof (Hscale (33 + n) ltac:(lia) ltac:(lia)) as HX.
    set (X := D * 2 ^ (53 - e1 - (33 + n))) in *.
    destruct Hn' as [-> | ->].
    + change (2 ^ 0) with 1 in *. rewrite Z.div_1_r in *.
      change (2 ^ (33 + 0)) with 8589934592 in HX. lia.
    + change (2 ^ 1) with 2 in *.
      pose proof (Z.mul_div_le q 2 ltac:(lia)).
      pose proof (Z.mul_succ_div_gt q 2 ltac:(lia)).
      change (2 ^ (33 + 1)) with 17179869184 in HX. lia.
  - assert (Ee : Zpos p = 53 - e1 - (34 + n)) by lia.
    rewrite Ee. pose proof (Hscale (34 + n) ltac:(lia) ltac:(lia)) as HX.
    set (X := D * 2 ^ (53 - e1 - (34 + n))) in *.
    destruct Hn' as [-> | ->].
    + change (2 ^ 0) with 1 in *. rewrite Z.div_1_r in *.
      change (2 ^ (34 + 0)) with 17179869184 in HX. lia.
    + change (2 ^ 1) with 2 in *.
      pose proof (Z.mul_div_le q 2 ltac:(lia)).
      pose proof (Z.mul_succ_div_gt q 2 ltac:(lia)).
      change (2 ^ (34 + 1)) with 34359738368 in HX. lia.
Qed.

(** The sign of the number a finite value stands for. *)
Lemma to_Q_sign (s : bool) (m : positive) (e : Z) :
  exists q, Float64.to_Q (S754_finite s m e) = Some q /\
            ((0 < q)%Q <-> s = false) /\ ((q < 0)%Q <-> s = true).
Proof.
  eexists. split; [done|].
  assert (0 < 2 ^ e \/ e < 0)
    by (destruct (Z.le_gt_cases 0 e); [left; apply Z.pow_pos_nonneg|right]; lia).
  destruct s, e as [|p|p]; unfold Qlt; cbn [Qnum Qden inject_Z cond_Zopp];
    split; split; try done; try nia.
Qed.

(** The same bracket, against the exact number of milliseconds. *)
Lemma duration_quotient_accurate (d : Z) :
  Z.abs d < 2 ^ 53 ->
  exists q,
    Float64.to_Q (Float64.div (Float64.of_int d)
                              (Float64.of_int time.Millisecond)) = Some q /\
    (Qabs (q - (d # 1000000)) * inject_Z (2 ^ 52) <= Qabs (d # 1000000))%Q.
Proof.
  intros Hr. destruct (Z.eq_dec d 0) as [Hd|Hd].
  - rewrite Hd, of_int_Millisecond. exists 0%Q. split; [done|]. done.
  - destruct (duration_quotient_bracket d Hd Hr) as (m & p & -> & Hb).
    eexists. split; [done|].
    unfold Qle, Qabs, Qminus, Qplus, Qopp, Qmult, inject_Z.
    cbn [Qnum Qden].
    rewrite !Pos2Z.inj_mul, Pos2Z.inj_pow.
    set (P := Zpos 2 ^ Zpos p) in *.
    assert (0 < P) by (apply Z.pow_pos_nonneg; lia).
    destruct (Z.ltb_spec d 0); cbn [cond_Zopp].
    + rewrite (Z.abs_neq d) in * by lia. lia.
    + rewrite (Z.abs_eq d) in * by lia. lia.
Qed.

End duration_facts.

Section MoreDurations.
Import honeycomb honeycomb_views round_facts duration_facts.

(** X13: [duration_ms] is a number for every span, never an infinity or a NaN,
    and its sign tells the order of the two instants: it is positive
    exactly when both instants are set and the span ends after it starts,
    negative exactly when both are set and it ends before it starts. *)
Theorem DurationMs_finite_signed (sd : trace.SpanData.t) :
  let s := trace.SpanData.StartTime sd in
  let e := trace.SpanData.EndTime sd in
  exists q, Float64.to_Q (Span.DurationMs (honeycombSpan sd)) = Some q /\
    ((0 < q)%Q <->
     time.IsZero s = false /\ time.IsZero e = false /\ time.ns s < time.ns e) /\
    ((q < 0)%Q <->
     time.IsZero s = false /\ time.IsZero e = false /\ time.ns e < time.ns s).
Proof.
  intros s e. rewrite honeycombSpan_DurationMs. fold s e.
  assert (Hzero : exists q, Float64.to_Q Float64.zero = Some q /\
                    ((0 < q)%Q <-> False) /\ ((q < 0)%Q <-> False)).
  { exists 0%Q. split; [done|]. split; split; try done; by intros ?%Qlt_irrefl. }
  destruct (time.IsZero s) eqn:Hs; cbn [negb andb].
  { destruct Hzero as (q & Hq & H1 & H2). exists q.
    split; [done|]. rewrite H1, H2. split; split; try done; by intros (? & _). }
  destruct (time.IsZero e) eqn:He; cbn [negb andb].
  { destruct Hzero as (q & Hq & H1 & H2). exists q.
    split; [done|]. rewrite H1, H2.
    split; split; try done; by intros (_ & ? & _). }
  pose proof (Sub_range e s) as Hrange.
  assert (Hsign : (0 < time.Sub e s <-> time.ns s < time.ns e) /\
                  (time.Sub e s < 0 <-> time.ns e < time.ns s)).
  { unfold time.Sub, time.minDuration, time.maxDuration.
    repeat case_match; lia. }
  destruct (Z.eq_dec (time.Sub e s) 0) as [Hd|Hd].
  - rewrite Hd, of_int_Millisecond.
    destruct Hzero as (q & Hq & H1 & H2). exists q.
    split; [done|]. rewrite H1, H2. split; split; try done; intros; lia.
  - destruct (duration_quotient_normal _ Hd Hrange) as (m & ex & -> & _).
    destruct (to_Q_sign (time.Sub e s <? 0) m ex) as (q & Hq & H1 & H2).
    exists q. split; [done|]. rewrite H1, H2.
    destruct (Z.ltb_spec (time.Sub e s) 0); split; split; try done;
      intros; try split; try done; lia.
Qed.

(** X14: For a span whose two instants are set and less than [2 ^ 53]
    nanoseconds (104 days) apart, [duration_ms] is the difference in
    milliseconds up to a relative error of [2 ^ (-52)]. *)
Theorem DurationMs_accurate (sd : trace.SpanData.t) :
  let s := trace.SpanData.StartTime sd in
  let e := trace.SpanData.EndTime sd in
  time.IsZero s = false -> time.IsZero e = false ->
  Z.abs (time.ns e - time.ns s) < 2 ^ 53 ->
  exists q, Float64.to_Q (Span.DurationMs (honeycombSpan sd)) = Some q /\
    (Qabs (q - spec_DurationMs sd) * inject_Z (2 ^ 52)
     <= Qabs (spec_DurationMs sd))%Q.
Proof.
  intros s e Hs He Hr. rewrite honeycombSpan_DurationMs. fold s e.
  rewrite Hs, He. cbn [negb andb].
  assert (Hpow : 2 ^ 53 < 2 ^ 63) by done.
  rewrite Sub_exact by lia. unfold spec_DurationMs. fold s e.
  set (d := time.ns e - time.ns s) in *.
  destruct (Z.eq_dec d 0) as [Hd|Hd].
  - rewrite Hd, of_int_Millisecond. exists 0%Q. split; [done|]. done.
  - destruct (duration_quotient_bracket d Hd Hr) as (m & p & -> & Hb).
    eexists. split; [done|].
    unfold Qle, Qabs, Qminus, Qplus, Qopp, Qmult, inject_Z.
    cbn [Qnum Qden].
    rewrite !Pos2Z.inj_mul, Pos2Z.inj_pow.
    set (P := Zpos 2 ^ Zpos p) in *.
    assert (0 < P) by (apply Z.pow_pos_nonneg; lia).
    destruct (Z.ltb_spec d 0); cbn [cond_Zopp].
    + rewrite (Z.abs_neq d) in * by lia. lia.
    + rewrite (Z.abs_eq d) in * by lia. lia.
Qed.

End MoreDurations.
(** * The [duration_ms] field of the Span event *)

Section DurationClaims.
Import libhoney honeycomb honeycomb_views honeycomb_facts event_fields
  field_facts round_facts duration_facts.

Variable uint_bits : Z.
Variable uint_unrepresentable : float64 -> Z.

Abbreviation emitted := (honeycomb_views.emitted uint_bits uint_unrepresentable).

(** The Span event carries [honeycombSpan]'s [DurationMs] under
    [duration_ms], unless the span has an attribute of that name. *)
Lemma emitted_duration_ms e sd c :
  trace.SpanData.Attributes sd !! "duration_ms" = None ->
  exists ev, emitted e sd c !! 0%nat = Some ev /\
             data ev !! "duration_ms"
               = Some (VFloat64 (Span.DurationMs (honeycombSpan sd))).
Proof.
  intros Hattr. eexists. split; [apply emitted_span|].
  rewrite span_event_lookup, Hattr.
  rewrite (span_struct_fields_mark sd _ "duration_ms"
             (VFloat64 (Span.DurationMs (honeycombSpan sd))))
    by (unfold span_marks; a_literal_member).
  repeat case_decide; try done;
    by match goal with H : _ /\ _ |- _ => destruct H as [? ?] end.
Qed.

(** C3, amended: for every span record whose [Attributes] have no key
    [duration_ms], the Span event that [ExportSpan] submits has a field
    [duration_ms] holding a float64. If [StartTime] or [EndTime] is zero,
    it is zero. If both are non-zero, it is the float64 quotient of
    [EndTime.Sub(StartTime)] (the difference counted in 64-bit nanoseconds,
    held at the largest or smallest such count when it does not fit) by
    [time.Millisecond]; when the difference is below [2 ^ 53] nanoseconds
    in magnitude, that is the difference in milliseconds up to a relative
    error of [2 ^ (-52)], and exactly the difference in milliseconds when
    this is a whole number. *)
Theorem C3_DurationMs e sd c :
  let s := trace.SpanData.StartTime sd in
  let en := trace.SpanData.EndTime sd in
  trace.SpanData.Attributes sd !! "duration_ms" = None ->
  exists ev x,
    emitted e sd c !! 0%nat = Some ev /\
    data ev !! "duration_ms" = Some (VFloat64 x) /\
    (time.IsZero s = true \/ time.IsZero en = true -> x = Float64.zero) /\
    (time.IsZero s = false -> time.IsZero en = false ->
     x = Float64.div (Float64.of_int (time.Sub en s))
                     (Float64.of_int time.Millisecond) /\
     (Z.abs (time.ns en - time.ns s) < 2 ^ 53 ->
      exists q, Float64.to_Q x = Some q /\
                (Qabs (q - spec_DurationMs sd) * inject_Z (2 ^ 52)
                 <= Qabs (spec_DurationMs sd))%Q) /\
     (forall k, time.ns en - time.ns s = k * 1000000 ->
                Z.abs (k * 1000000) < 2 ^ 53 ->
      exists q, Float64.to_Q x = Some q /\ (q == spec_DurationMs sd)%Q)).
Proof.
  intros s en Hattr.
  destruct (emitted_duration_ms e sd c Hattr) as (ev & Hev & Hd).
  exists ev, (Span.DurationMs (honeycombSpan sd)).
  split; [done|]. split; [done|].
  pose proof (DurationMs_whole_milliseconds sd) as Hwhole.
  rewrite honeycombSpan_DurationMs in *. fold s en in Hwhole |- *. split.
  - by intros [-> | ->]; [|rewrite andb_false_r].
  - intros Hs He. rewrite Hs, He in *. cbn [negb andb] in *.
    split; [done|]. split.
    + intros Hr. assert (Hpow : 2 ^ 53 < 2 ^ 63) by done.
      rewrite Sub_exact by lia. by apply duration_quotient_accurate.
    + intros k Hk Hr. by apply (Hwhole k).
Qed.

(** C10, amended: for every span record whose [Attributes] have no key
    [duration_ms] and in which both [StartTime] and [EndTime] are non-zero
    but [EndTime] is earlier than [StartTime], [ExportSpan] does not reject
    the span: it submits the Span event and one event per annotation, and
    the Span event's [duration_ms] is a negative float64, the quotient of
    the negative duration [EndTime.Sub(StartTime)] (the difference in
    64-bit nanoseconds, held at [- 2 ^ 63] when it does not fit) by
    [time.Millisecond]. When the difference is below [2 ^ 53] nanoseconds
    in magnitude, that is the negative difference in milliseconds up to a
    relative error of [2 ^ (-52)], and exactly so when this is a whole
    number. *)
Theorem C10_negative_duration e sd c :
  let s := trace.SpanData.StartTime sd in
  let en := trace.SpanData.EndTime sd in
  trace.SpanData.Attributes sd !! "duration_ms" = None ->
  time.IsZero s = false -> time.IsZero en = false -> time.ns en < time.ns s ->
  length (emitted e sd c) = S (length (trace.SpanData.Annotations sd)) /\
  exists ev x,
    emitted e sd c !! 0%nat = Some ev /\
    data ev !! "duration_ms" = Some (VFloat64 x) /\
    time.Sub en s < 0 /\
    x = Float64.div (Float64.of_int (time.Sub en s))
                    (Float64.of_int time.Millisecond) /\
    Float64.ltb x Float64.zero = true /\
    (exists q, Float64.to_Q x = Some q /\ (q < 0)%Q) /\
    (Z.abs (time.ns en - time.ns s) < 2 ^ 53 ->
     exists q, Float64.to_Q x = Some q /\
               (Qabs (q - spec_DurationMs sd) * inject_Z (2 ^ 52)
                <= Qabs (spec_DurationMs sd))%Q) /\
    (forall k, time.ns en - time.ns s = k * 1000000 ->
               Z.abs (k * 1000000) < 2 ^ 53 ->
     exists q, Float64.to_Q x = Some q /\ (q == spec_DurationMs sd)%Q).
Proof.
  intros s en Hattr Hs He Hlt. split; [apply emitted_length|].
  destruct (emitted_duration_ms e sd c Hattr) as (ev & Hev & Hd).
  exists ev, (Span.DurationMs (honeycombSpan sd)).
  split; [done|]. split; [done|].
  pose proof (Sub_negative en s Hlt) as Hneg.
  pose proof (Sub_range en s) as Hrange.
  pose proof (DurationMs_whole_milliseconds sd) as Hwhole.
  rewrite honeycombSpan_DurationMs in *. fold s en in Hwhole |- *.
  rewrite Hs, He in *. cbn [negb andb] in *.
  split; [done|]. split; [done|].
  destruct (duration_quotient_normal (time.Sub en s)) as (m & ex & Hq & _);
    [lia|lia|].
  rewrite (proj2 (Z.ltb_lt _ _) Hneg) in Hq.
  split; [by rewrite Hq|]. split; [|split].
  - destruct (to_Q_sign true m ex) as (q & Hq' & _ & Hsign).
    exists q. rewrite Hq. split; [done|]. by apply Hsign.
  - intros Hr. assert (Hpow : 2 ^ 53 < 2 ^ 63) by done.
    rewrite Sub_exact by lia. by apply duration_quotient_accurate.
  - intros k Hk Hr. by apply (Hwhole k).
Qed.

End DurationClaims.
(** * The further properties on concrete spans *)

Section MoreExamples.
Import libhoney libhoney_facts honeycomb honeycomb_views examples.

Abbreviation emitted64 := (honeycomb_views.emitted bits64 unrep0).

Lemma span_event_identity_witness :
  exists ev, emitted64 default_exporter span_150ms idle_client !! 0%nat = Some ev /\
             Timestamp ev = t2018 /\
             data ev !! "name" = Some (VString "op") /\
             data ev !! "duration_ms" = Some (VFloat64 (Float64.of_int 150)).
Proof.
  destruct (span_event_identity bits64 unrep0 default_exporter span_150ms
              idle_client) as (ev & Hev & Ht & Hmarks).
  exists ev. split; [done|]. split; [done|]. split.
  - apply Hmarks; [|reflexivity].
    unfold span_marks. rewrite !elem_of_cons. right; left. reflexivity.
  - apply Hmarks; [|reflexivity].
    unfold span_marks. rewrite !elem_of_cons. right; right; right; left.
    vm_compute. reflexivity.
Defined.

Lemma emitted_keeps_builder_fields_witness :
  exists ev,
    emitted64 (NewExporter team_builder) span_150ms idle_client !! 0%nat
      = Some ev /\
    is_Some (data ev !! "team") /\ is_Some (data ev !! "name").
Proof.
  eexists. split; [vm_compute; reflexivity|]. split.
  - refine (emitted_keeps_builder_fields bits64 unrep0 (NewExporter team_builder)
              span_150ms idle_client 0 _ "team" _ _).
    + vm_compute; reflexivity.
    + vm_compute. by eexists.
  - refine (emitted_keeps_builder_fields bits64 unrep0 (NewExporter team_builder)
              span_150ms idle_client 0 _ "name" _ _).
    + vm_compute; reflexivity.
    + vm_compute. by eexists.
Defined.

Lemma emitted_field_origin_witness :
  "key" ∈ own_names 1 \/
  is_Some (attributes_of span_child 1 !! "key") \/
  is_Some (data (fresh (Builder default_exporter) (issued idle_client + 1)%nat)
             !! "key").
Proof.
  refine (emitted_field_origin bits64 unrep0 default_exporter span_child
            idle_client 1 _ "key" _ _).
  - vm_compute; reflexivity.
  - vm_compute. by eexists.
Defined.

Lemma annotation_joins_span_witness :
  exists ev0 ev,
    emitted64 default_exporter span_child idle_client !! 0%nat = Some ev0 /\
    emitted64 default_exporter span_child idle_client !! 1%nat = Some ev /\
    data ev !! "trace.parent_id" = Some (VString "0202020202020202") /\
    data ev !! "trace.parent_id" = data ev0 !! "trace.span_id" /\
    data ev !! "trace.trace_id" = data ev0 !! "trace.trace_id".
Proof.
  eexists _, _. split; [vm_compute; reflexivity|].
  split; [vm_compute; reflexivity|]. split; [vm_compute; reflexivity|].
  refine (proj2 (annotation_joins_span bits64 unrep0 default_exporter span_child
                   idle_client 0 _ _ _ _ _ _ _ _)).
  all: vm_compute; reflexivity.
Defined.

Lemma annotation_timestamp_field_witness :
  exists ev,
    emitted64 default_exporter span_note_untimed idle_client !! 1%nat = Some ev /\
    Timestamp ev = time.zero /\
    data ev !! "timestamp" = Some (VTime time.zero).
Proof.
  apply (annotation_timestamp_field bits64 unrep0 default_exporter
           span_note_untimed idle_client 0 note_untimed).
  - reflexivity.
  - reflexivity.
Defined.

Lemma SampleRate_uniform_witness :
  exists ev ev',
    emitted64 (sampling f_1_93) span_child idle_client !! 1%nat = Some ev /\
    emitted64 (exporter_of f_1_93 "svc") span_150ms idle_client !! 0%nat
      = Some ev' /\
    SampleRate ev = SampleRate ev'.
Proof.
  eexists _, _. split; [vm_compute; reflexivity|].
  split; [vm_compute; reflexivity|].
  refine (SampleRate_uniform bits64 unrep0 (sampling f_1_93)
            (exporter_of f_1_93 "svc") span_child span_150ms idle_client
            idle_client 1 0 _ _ _ _ _ _).
  all: vm_compute; reflexivity.
Defined.

Lemma range_AddField_any_order_witness :
  range_AddField_in (reverse (map_to_list two_attributes)) plain_event
    = range_AddField two_attributes plain_event.
Proof.
  apply (range_AddField_any_order two_attributes
           (reverse (map_to_list two_attributes)) plain_event).
  apply reverse_Permutation.
Defined.

Lemma NewExporter_SampleRate_witness :
  exists ev,
    emitted64 (NewExporter team_builder) span_child idle_client !! 1%nat
      = Some ev /\
    SampleRate ev = 1.
Proof.
  eexists. split; [vm_compute; reflexivity|].
  refine (NewExporter_SampleRate bits64 unrep0 team_builder span_child
            idle_client 1 _ _ _).
  - unfold bits64; lia.
  - vm_compute; reflexivity.
Defined.

Lemma SampleFraction_in_unit_interval_witness :
  exists ev,
    emitted64 (sampling f0625) span_child idle_client !! 1%nat = Some ev /\
    1 <= SampleRate ev <= 2 ^ 1.
Proof.
  eexists. split; [vm_compute; reflexivity|].
  refine (SampleFraction_in_unit_interval bits64 unrep0 (sampling f0625)
            span_child idle_client 1 _ 1 _ _ _ _ _ _).
  - unfold bits64; lia.
  - lia.
  - vm_compute; reflexivity.
  - vm_compute; reflexivity.
  - vm_compute; reflexivity.
  - vm_compute; reflexivity.
Defined.

(** The exact reciprocal of the float64 [0.2] is just below 5; the
    float64 quotient is 5. *)
Lemma SampleRate_near_reciprocal_witness :
  exists ev,
    emitted64 (sampling f02) span_child idle_client !! 0%nat = Some ev /\
    Qfloor (/ (7205759403792794 # 36028797018963968)) = 4 /\
    SampleRate ev = 5 /\
    Qfloor (/ (7205759403792794 # 36028797018963968)) <= SampleRate ev
      <= Qfloor (/ (7205759403792794 # 36028797018963968)) + 1.
Proof.
  eexists. split; [vm_compute; reflexivity|].
  split; [vm_compute; reflexivity|]. split; [vm_compute; reflexivity|].
  refine (SampleRate_near_reciprocal bits64 unrep0 (sampling f02) span_child
            idle_client 0 _ 3 _ _ _ _ _ _ _ _).
  - unfold bits64; lia.
  - lia.
  - vm_compute; reflexivity.
  - vm_compute; reflexivity.
  - vm_compute; reflexivity.
  - vm_compute; reflexivity.
  - vm_compute; reflexivity.
Defined.

Lemma ExportSpan_platform_independent_witness :
  honeycomb.ExportSpan 32 unrep0 (sampling f0625) span_child idle_client =
  honeycomb.ExportSpan bits64 (fun _ => 7) (sampling f0625) span_child idle_client.
Proof.
  refine (ExportSpan_platform_independent bits64 (fun _ => 7) (sampling f0625)
            span_child idle_client 1 32 unrep0 _ _ _ _ _ _).
  - unfold bits64; lia.
  - lia.
  - lia.
  - vm_compute; reflexivity.
  - vm_compute; reflexivity.
  - vm_compute; reflexivity.
Defined.

Lemma SampleFraction_power_of_two_witness :
  exists ev,
    emitted64 (sampling (float64_pow2 (-3))) span_child idle_client !! 0%nat
      = Some ev /\
    SampleRate ev = 2 ^ 3.
Proof.
  eexists. split; [vm_compute; reflexivity|].
  refine (SampleFraction_power_of_two bits64 unrep0 (sampling (float64_pow2 (-3)))
            span_child idle_client 0 _ 3 _ _ _ _).
  - unfold bits64; lia.
  - lia.
  - reflexivity.
  - vm_compute; reflexivity.
Defined.

Lemma SampleFraction_above_one_witness :
  exists ev,
    emitted64 (sampling (Float64.of_int 2)) span_child idle_client !! 1%nat
      = Some ev /\
    SampleRate ev = 0.
Proof.
  eexists. split; [vm_compute; reflexivity|].
  refine (SampleFraction_above_one bits64 unrep0 (sampling (Float64.of_int 2))
            span_child idle_client 1 _ _ _ _ _).
  - unfold bits64; lia.
  - vm_compute; reflexivity.
  - vm_compute; reflexivity.
  - vm_compute; reflexivity.
Defined.

Lemma DurationMs_accurate_witness :
  exists q,
    Float64.to_Q (Span.DurationMs (honeycombSpan span_1us)) = Some q /\
    (Qabs (q - spec_DurationMs span_1us) * inject_Z (2 ^ 52)
     <= Qabs (spec_DurationMs span_1us))%Q.
Proof.
  apply (DurationMs_accurate span_1us).
  - reflexivity.
  - reflexivity.
  - vm_compute; reflexivity.
Defined.

End MoreExamples.
(** * Durations of concrete spans *)

Section DurationExamples.
Import libhoney honeycomb honeycomb_views examples.

Abbreviation emitted64 := (honeycomb_views.emitted bits64 unrep0).

(** The example of section 8: 150 ms are reported as 150. *)
Example DurationMs_150ms :
  Qred <$> Float64.to_Q (Span.DurationMs (honeycombSpan span_150ms))
    = Some (inject_Z 150).
Proof. vm_compute. reflexivity. Qed.

(** C3 as stated fails, on the Span event submitted. A span whose instants
    are more than [2 ^ 63] nanoseconds apart has a [duration_ms] of about
    [9.2e12], less than a sixth of the number of milliseconds between its
    instants. A span of one microsecond has a [duration_ms] that is not
    1/1000 (no float64 is): it is a float64 next to it. And a span of
    150 ms with an attribute named [duration_ms] has the attribute's value
    as its [duration_ms]. *)
Lemma C3_counterexample :
  (time.IsZero (trace.SpanData.StartTime span_ancient) = false /\
   time.IsZero (trace.SpanData.EndTime span_ancient) = false /\
   exists x q,
     field_of (emitted64 default_exporter span_ancient idle_client) 0 "duration_ms"
       = Some (VFloat64 x) /\
     Float64.to_Q x = Some q /\
     (6 * q < spec_DurationMs span_ancient)%Q) /\
  (time.IsZero (trace.SpanData.StartTime span_1us) = false /\
   time.IsZero (trace.SpanData.EndTime span_1us) = false /\
   (spec_DurationMs span_1us == Qmake 1 1000)%Q /\
   exists x q,
     field_of (emitted64 default_exporter span_1us idle_client) 0 "duration_ms"
       = Some (VFloat64 x) /\
     Float64.to_Q x = Some q /\
     ~ (q == spec_DurationMs span_1us)%Q) /\
  (time.IsZero (trace.SpanData.StartTime span_attr_duration_ms) = false /\
   time.IsZero (trace.SpanData.EndTime span_attr_duration_ms) = false /\
   (spec_DurationMs span_attr_duration_ms == inject_Z 150)%Q /\
   field_of (emitted64 default_exporter span_attr_duration_ms idle_client) 0
     "duration_ms" = Some (VString "x")).
Proof.
  split; [|split].
  - split; [reflexivity|]. split; [reflexivity|].
    eexists _, _. split; [vm_compute; reflexivity|].
    split; [vm_compute; reflexivity|].
    unfold Qlt. vm_compute. reflexivity.
  - split; [reflexivity|]. split; [reflexivity|]. split; [reflexivity|].
    eexists _, _. split; [vm_compute; reflexivity|].
    split; [vm_compute; reflexivity|].
    unfold Qeq. vm_compute. intros [=].
  - split; [reflexivity|]. split; [reflexivity|]. split; [reflexivity|].
    vm_compute. reflexivity.
Qed.

Lemma C3_witness :
  exists ev x,
    emitted64 default_exporter span_150ms idle_client !! 0%nat = Some ev /\
    data ev !! "duration_ms" = Some (VFloat64 x) /\
    exists q, Float64.to_Q x = Some q /\ (q == spec_DurationMs span_150ms)%Q.
Proof.
  destruct (C3_DurationMs bits64 unrep0 default_exporter span_150ms idle_client)
    as (ev & x & Hev & Hx & _ & Hnz); [vm_compute; reflexivity|].
  exists ev, x. split; [exact Hev|]. split; [exact Hx|].
  destruct Hnz as (_ & _ & Hexact); [reflexivity|reflexivity|].
  apply (Hexact 150); vm_compute; reflexivity.
Defined.

(** C10 as stated fails, on the Span event submitted. A span that starts
    in 2018 and ends a nanosecond after the zero time has a [duration_ms]
    of about [-9.2e12], less than a sixth, in magnitude, of the negative
    number of milliseconds between its instants. And a span that ends 2 ms
    before it starts and has an attribute named [duration_ms] has the
    attribute's value as its [duration_ms]. *)
Lemma C10_counterexample :
  (time.IsZero (trace.SpanData.StartTime span_backwards_far) = false /\
   time.IsZero (trace.SpanData.EndTime span_backwards_far) = false /\
   time.ns (trace.SpanData.EndTime span_backwards_far)
     < time.ns (trace.SpanData.StartTime span_backwards_far) /\
   exists x q,
     field_of (emitted64 default_exporter span_backwards_far idle_client) 0
       "duration_ms" = Some (VFloat64 x) /\
     Float64.to_Q x = Some q /\
     (spec_DurationMs span_backwards_far < 6 * q)%Q) /\
  (time.IsZero (trace.SpanData.StartTime span_backwards_attr_duration_ms) = false /\
   time.IsZero (trace.SpanData.EndTime span_backwards_attr_duration_ms) = false /\
   time.ns (trace.SpanData.EndTime span_backwards_attr_duration_ms)
     < time.ns (trace.SpanData.StartTime span_backwards_attr_duration_ms) /\
   field_of (emitted64 default_exporter span_backwards_attr_duration_ms idle_client)
     0 "duration_ms" = Some (VString "x")).
Proof.
  split.
  - split; [reflexivity|]. split; [reflexivity|]. split; [reflexivity|].
    eexists _, _. split; [vm_compute; reflexivity|].
    split; [vm_compute; reflexivity|].
    unfold Qlt. vm_compute. reflexivity.
  - split; [reflexivity|]. split; [reflexivity|]. split; [reflexivity|].
    vm_compute. reflexivity.
Qed.

Lemma C10_witness :
  length (emitted64 default_exporter span_backwards idle_client) = 1%nat /\
  exists ev x,
    emitted64 default_exporter span_backwards idle_client !! 0%nat = Some ev /\
    data ev !! "duration_ms" = Some (VFloat64 x) /\
    Float64.ltb x Float64.zero = true /\
    exists q, Float64.to_Q x = Some q /\ (q == spec_DurationMs span_backwards)%Q.
Proof.
  destruct (C10_negative_duration bits64 unrep0 default_exporter span_backwards
              idle_client)
    as (Hlen & ev & x & Hev & Hx & _ & _ & Hneg & _ & _ & Hexact).
  - vm_compute; reflexivity.
  - reflexivity.
  - reflexivity.
  - reflexivity.
  - split; [exact Hlen|].
    exists ev, x. split; [exact Hev|]. split; [exact Hx|]. split; [exact Hneg|].
    apply (Hexact (-2)); vm_compute; reflexivity.
Defined.

End DurationExamples.
